(** * Crisis response service: configuration assembly, deployment CLI and
      corpus preparation, embedded from the Python sources

    - [crisis_response/agent.py]: the module that reads the environment and
      assembles the tool list and the root agent;
    - [deployment/deploy.py]: the command line tool that creates, updates,
      deletes and lists Agent Engine deployments and records the deployment
      identity in the [.env] file;
    - [crisis_response/shared_libraries/prepare_crisis_corpus.py]: the script
      that resolves or creates the RAG corpus and uploads the documents.

    Python code is embedded as computations in a state-and-exception monad
    over a [World]: the process environment, the [.env] file, the temporary
    directory and the chronological trace of observable effects (log lines,
    prints, SDK and HTTP calls).  The answers of the external services are
    not part of the program; they are given by an [External] record of
    oracles that see the trace so far, and every theorem quantifies over it. *)

From stdpp Require Import base option list strings gmap pretty.
From Stdlib Require Import ZArith Lia.

(** ** Python values used by the three programs *)

Module Py.

(** Truthiness of a [str]: only the empty string is falsy. *)
Definition str_truthy (s : string) : bool :=
  match s with
  | EmptyString => false
  | String _ _ => true
  end.

(** Truthiness of an [Optional[str]], as tested by [if x:] and [not x]. *)
Definition truthy (o : option string) : bool :=
  match o with
  | None => false
  | Some s => str_truthy s
  end.

(** Truthiness of an optional object without [__bool__] or [__len__]. *)
Definition obj_truthy {A : Type} (o : option A) : bool :=
  match o with
  | None => false
  | Some _ => true
  end.

Definition nl : string := String (Ascii.ascii_of_nat 10) EmptyString.
Definition dq : string := String (Ascii.ascii_of_nat 34) EmptyString.

Fixpoint join (sep : string) (l : list string) : string :=
  match l with
  | [] => ""
  | [s] => s
  | s :: rest => s +:+ sep +:+ join sep rest
  end.

(** [repr] of a string without quotes, backslashes or control characters
    (all strings the programs format this way are such constants). *)
Definition repr_str (s : string) : string := "'" +:+ s +:+ "'".

(** [repr] of a list of strings, as an f-string prints it. *)
Definition repr_list (l : list string) : string :=
  "[" +:+ join ", " (repr_str <$> l) +:+ "]".

(** [str] of an optional string inside an f-string. *)
Definition str_opt (o : option string) : string :=
  match o with
  | None => "None"
  | Some s => s
  end.

(** The exception classes the programs raise or catch.  All three are
    subclasses of [Exception]; [OtherException] stands for any class that
    is neither a [ValueError] nor a [requests.exceptions.RequestException].
    The string is what [str(e)] prints. *)
Inductive Exn :=
| ValueError (msg : string)
| RequestException (msg : string)
| OtherException (msg : string).

Definition str_exn (e : Exn) : string :=
  match e with
  | ValueError m | RequestException m | OtherException m => m
  end.

Definition is_ValueError (e : Exn) : bool :=
  match e with ValueError _ => true | _ => false end.
Definition is_RequestException (e : Exn) : bool :=
  match e with RequestException _ => true | _ => false end.
Definition is_Exception (e : Exn) : bool := true.

End Py.

(** ** The objects of the agent framework (google.adk) *)

Module Adk.

(** [rag.RagResource(rag_corpus=...)] *)
Record RagResource := { rag_corpus : string }.

(** Tools and agents.  [AgentTool(agent=x)] accepts any object that has a
    [name] and a [description]; agent.py wraps both a retrieval tool and an
    agent in it, hence the [Wrapped] sum. *)
Inductive Tool :=
| google_search
| VertexAiRagRetrieval (name description : string)
                       (rag_resources : list RagResource)
| AgentTool (agent : Wrapped)
with Wrapped :=
| OfTool (t : Tool)
| OfAgent (a : Agent)
with Agent :=
| mkAgent (model name description instruction : string)
          (tools : list Tool).

Definition agent_model (a : Agent) : string :=
  match a with mkAgent m _ _ _ _ => m end.
Definition agent_name (a : Agent) : string :=
  match a with mkAgent _ n _ _ _ => n end.
Definition agent_description (a : Agent) : string :=
  match a with mkAgent _ _ d _ _ => d end.
Definition agent_instruction (a : Agent) : string :=
  match a with mkAgent _ _ _ i _ => i end.
Definition agent_tools_of (a : Agent) : list Tool :=
  match a with mkAgent _ _ _ _ ts => ts end.

(** The [name] attribute.  [AgentTool.__init__] passes [agent.name] to
    [BaseTool.__init__], so a wrapper carries the name of what it wraps. *)
Fixpoint tool_name (t : Tool) : string :=
  match t with
  | google_search => "google_search"
  | VertexAiRagRetrieval n _ _ => n
  | AgentTool w =>
      match w with
      | OfTool t' => tool_name t'
      | OfAgent a => agent_name a
      end
  end.

(** [AdkApp(agent=..., enable_tracing=...)] *)
Record AdkApp := { agent : Agent; enable_tracing : bool }.

End Adk.

(** ** Objects returned by the cloud services *)

Module AgentEngine.
(** A deployed Agent Engine as the control plane reports it. *)
Record t := {
  resource_name : string;
  name : string;
  display_name : string;
  create_time : string;
  update_time : string;
  description : string
}.
End AgentEngine.

Module RagCorpus.
Record t := { name : string; display_name : string }.
End RagCorpus.

Module RagFile.
Record t := { name : string; display_name : string }.
End RagFile.

(** ** The world, its trace and the monad *)

Inductive Level := INFO | WARNING | ERROR.

(** Observable effects, in the order the program performs them. *)
Inductive Event :=
| Log (lvl : Level) (msg : string)
| Print (msg : string)
| AuthDefault
| VertexaiInit (project location : string) (staging_bucket : option string)
| AgentEnginesCreate (app : Adk.AdkApp) (display_name description : string)
                     (requirements extra_packages : list string)
| AgentEnginesGet (resource_name : string)
| RemoteAgentDelete (resource_name : string) (force : bool)
| AgentEnginesList
| AgentEnginesUpdate (resource_name : string) (app : Adk.AdkApp)
                     (display_name description : string)
                     (requirements extra_packages : list string)
| RagListCorpora
| RagCreateCorpus (display_name description publisher_model : string)
| RagListFiles (corpus_name : string)
| RagUploadFile (corpus_name path display_name description : string)
| RequestsGet (url : string).

(** Calls against the agent-deployment control plane. *)
Definition is_control_plane_call (e : Event) : bool :=
  match e with
  | AgentEnginesCreate _ _ _ _ _ | AgentEnginesGet _ | RemoteAgentDelete _ _
  | AgentEnginesList | AgentEnginesUpdate _ _ _ _ _ _ => true
  | _ => false
  end.

(** Calls that leave the machine.  [vertexai.init] only validates and records
    the project, the location and the bucket in the SDK's global
    configuration. *)
Definition is_network_call (e : Event) : bool :=
  match e with
  | Log _ _ | Print _ | VertexaiInit _ _ _ => false
  | _ => true
  end.

Record World := {
  environ : gmap string string;            (* os.environ *)
  env_file_path : string;                  (* ENV_FILE_PATH, absolute *)
  env_file : option (gmap string string);  (* the .env file; None: no file *)
  env_file_error : option string;          (* Some m: writing .env raises m *)
  temp_dir : string;                       (* name tempfile will hand out *)
  tmp_files : gset string;                 (* files in the temporary directory *)
  trace : list Event
}.

Definition with_environ (w : World) (e : gmap string string) : World :=
  {| environ := e; env_file_path := env_file_path w; env_file := env_file w;
     env_file_error := env_file_error w; temp_dir := temp_dir w;
     tmp_files := tmp_files w; trace := trace w |}.
Definition with_env_file (w : World) (f : option (gmap string string)) : World :=
  {| environ := environ w; env_file_path := env_file_path w; env_file := f;
     env_file_error := env_file_error w; temp_dir := temp_dir w;
     tmp_files := tmp_files w; trace := trace w |}.
Definition with_tmp_files (w : World) (s : gset string) : World :=
  {| environ := environ w; env_file_path := env_file_path w;
     env_file := env_file w; env_file_error := env_file_error w;
     temp_dir := temp_dir w; tmp_files := s; trace := trace w |}.
Definition with_trace (w : World) (t : list Event) : World :=
  {| environ := environ w; env_file_path := env_file_path w;
     env_file := env_file w; env_file_error := env_file_error w;
     temp_dir := temp_dir w; tmp_files := tmp_files w; trace := t |}.

(** How a Python computation ends: a value, an exception that propagates, or
    [SystemExit] raised by [exit(code)] (not an [Exception], so no
    [except Exception] catches it). *)
Inductive Outcome (A : Type) :=
| Ret (a : A)
| Raise (e : Py.Exn)
| SysExit (code : Z).
Arguments Ret {A} a.
Arguments Raise {A} e.
Arguments SysExit {A} code.

Definition M (A : Type) : Type := World → Outcome A * World.

Definition ret {A} (a : A) : M A := λ w, (Ret a, w).

Definition bind {A B} (m : M A) (k : A → M B) : M B :=
  λ w, match m w with
       | (Ret a, w') => k a w'
       | (Raise e, w') => (Raise e, w')
       | (SysExit c, w') => (SysExit c, w')
       end.

Declare Scope py_scope.
Delimit Scope py_scope with py.
Notation "x <- m ;; k" := (bind m (λ x, k))
  (at level 100, m at next level, k at level 200, right associativity)
  : py_scope.
Notation "m ;; k" := (bind m (λ _, k))
  (at level 100, k at level 200, right associativity) : py_scope.
Open Scope py_scope.

Definition raise {A} (e : Py.Exn) : M A := λ w, (Raise e, w).
Definition exit {A} (code : Z) : M A := λ w, (SysExit code, w).

(** [try: m except C as e: h e], where [catches] says which exceptions are
    instances of [C]. *)
Definition try_except {A} (m : M A) (catches : Py.Exn → bool)
    (h : Py.Exn → M A) : M A :=
  λ w, match m w with
       | (Raise e, w') => if catches e then h e w' else (Raise e, w')
       | r => r
       end.

Definition emit (e : Event) : M unit :=
  λ w, (Ret (), with_trace w (trace w ++ [e])).

Definition logger_info (msg : string) : M unit := emit (Log INFO msg).
Definition logger_warning (msg : string) : M unit := emit (Log WARNING msg).
Definition logger_error (msg : string) : M unit := emit (Log ERROR msg).
Definition print (msg : string) : M unit := emit (Print msg).

(** [os.getenv(key)] and [os.getenv(key, default)] *)
Definition getenv (key : string) : M (option string) :=
  λ w, (Ret (environ w !! key), w).
Definition getenv_default (key dflt : string) : M string :=
  λ w, (Ret (default dflt (environ w !! key)), w).

(** The process exit status: 0 after a normal end, 1 after an uncaught
    exception, the given code after [exit(code)]. *)
Definition exit_status {A} (o : Outcome A) : Z :=
  match o with
  | Ret _ => 0
  | Raise _ => 1
  | SysExit c => c
  end.

(** What [requests.get], [raise_for_status] and the streaming of the body
    into the output file do: the body is written; or a
    [RequestException] is raised before the file is opened or while it is
    being written; or some other exception is raised. *)
Inductive Http :=
| HttpOk
| HttpRequestException (msg : string) (file_created : bool)
| HttpOtherException (msg : string).

(** ** The external services

    Each oracle is asked after the call's own event has been appended to the
    trace, so it sees the call's arguments and everything that happened
    before; [inl e] means that the call raised [e]. *)
Record External := {
  auth_default : list Event → option Py.Exn;
  vertexai_init : list Event → option Py.Exn;
  agent_engines_create : list Event → Py.Exn + AgentEngine.t;
  agent_engines_get : list Event → Py.Exn + AgentEngine.t;
  remote_agent_delete : list Event → option Py.Exn;
  agent_engines_list : list Event → Py.Exn + list AgentEngine.t;
  agent_engines_update : list Event → Py.Exn + AgentEngine.t;
  rag_list_corpora : list Event → Py.Exn + list RagCorpus.t;
  rag_create_corpus : list Event → Py.Exn + RagCorpus.t;
  rag_list_files : list Event → Py.Exn + list RagFile.t;
  rag_upload_file : list Event → Py.Exn + RagFile.t;
  requests_get : list Event → Http
}.

(** Perform a call: record it, then take the service's answer. *)
Definition call {A} (e : Event) (oracle : list Event → Py.Exn + A) : M A :=
  λ w, let w' := with_trace w (trace w ++ [e]) in
       match oracle (trace w') with
       | inl x => (Raise x, w')
       | inr a => (Ret a, w')
       end.

Definition call_unit (e : Event) (oracle : list Event → option Py.Exn)
    : M unit :=
  λ w, let w' := with_trace w (trace w ++ [e]) in
       match oracle (trace w') with
       | Some x => (Raise x, w')
       | None => (Ret (), w')
       end.

(** ** python-dotenv on the parsed [.env] file *)

Module Dotenv.

(** [load_dotenv(override=...)]: every key of the file is copied into
    [os.environ]; a key the environment already has is kept unless
    [override] is true.  Nothing happens when there is no file. *)
Definition load_dotenv (override : bool) : M unit :=
  λ w, match env_file w with
       | None => (Ret (), w)
       | Some f =>
           (Ret (), with_environ w (if override then f ∪ environ w
                                    else environ w ∪ f))
       end.

Definition ENV_FILE_PATH : M string := λ w, (Ret (env_file_path w), w).

(** [os.path.exists(ENV_FILE_PATH)] *)
Definition exists_ : M bool := λ w, (Ret (Py.obj_truthy (env_file w)), w).

(** [with open(ENV_FILE_PATH, "w") as f: pass] *)
Definition create_empty : M unit :=
  λ w, match env_file_error w with
       | Some m => (Raise (Py.OtherException m), w)
       | None => (Ret (), with_env_file w (Some ∅))
       end.

(** [set_key(path, key, value)] *)
Definition set_key (key value : string) : M unit :=
  λ w, match env_file_error w with
       | Some m => (Raise (Py.OtherException m), w)
       | None =>
           (Ret (),
            with_env_file w (Some (<[key := value]> (default ∅ (env_file w)))))
       end.

(** [unset_key(path, key)]: returns at once when the file does not exist. *)
Definition unset_key (key : string) : M unit :=
  λ w, match env_file w with
       | None => (Ret (), w)
       | Some f =>
           match env_file_error w with
           | Some m => (Raise (Py.OtherException m), w)
           | None => (Ret (), with_env_file w (Some (delete key f)))
           end
       end.

End Dotenv.

(** ** crisis_response/prompts.py *)

Module Prompts.

Definition CRISIS_RESPONSE_SYSTEM_INSTRUCTION : string :=
  "You are a helpful and empathetic Crisis Response Information Assistant. Your primary goal is to provide clear, accurate, and actionable information to help people during emergencies.

Follow these guidelines:
1.  **Prioritize Verified Information:** Prefer information from the uploaded knowledge base (retrieved via the RAG tool `VertexAiRagRetrieval`) as it contains curated official documents. Cite the source document when using this information.
2.  **Use Web Search for Current/Specific Info:** If the user's query concerns very recent events, rapidly evolving situations, specific local real-time information not found in the knowledge base, or if the user explicitly asks for current updates, use the `GoogleSearch` tool. When searching, prioritize results from official government (e.g., fema.gov, cdc.gov, noaa.gov, local emergency services like ready.gov or specific state/county sites) and recognized emergency response organizations (e.g., who.int, redcross.org).
3.  **Location Awareness:** If the user specifies a location (e.g., city, county, state) or asks for information "
  +:+ Py.dq +:+
  "near me,"
  +:+ Py.dq +:+
  " use that location information in your RAG queries (if applicable to the documents) and especially in your `GoogleSearch` queries to provide relevant local information (e.g., 'emergency shelters near Dublin, California', 'current flood status [river name] [city]'). If no location is given for a location-sensitive query, ask for clarification (e.g., "
  +:+ Py.dq +:+
  "For which city or region are you asking about evacuation zones?"
  +:+ Py.dq +:+
  ").
4.  **Be Clear, Concise, and Actionable:** Provide information in an easy-to-understand manner. Use bullet points for steps, lists, or key recommendations.
5.  **Empathy and Safety:** Respond with empathy. If the situation sounds life-threatening or implies immediate danger, advise the user to contact local emergency services (e.g., 911 in the US, or the relevant local emergency number) immediately.
6.  **Disclaimer:** Remind users that you are an AI assistant and your information is for guidance and not a substitute for official emergency services or professional advice.
7.  **"
  +:+ Py.dq +:+
  "How to Help"
  +:+ Py.dq +:+
  " Queries:** If asked how to help people affected by a crisis, you can search for reputable organizations involved in relief efforts for that specific crisis using `GoogleSearch` (e.g., "
  +:+ Py.dq +:+
  "donate to victims of [crisis name] site:redcross.org OR site:charitynavigator.org"
  +:+ Py.dq +:+
  ") or provide general links to well-known international organizations like the Red Cross, UNICEF, or Doctors Without Borders if the query is general.
8.  **Tool Usage - VERY IMPORTANT:**
    * To search the curated knowledge base for general information, procedures, or guidelines, use the RAG tool. The RAG tool is implicitly called when you need to access the pre-loaded corpus. Formulate your thoughts as if you are querying this knowledge base.
    * To get the absolute latest news, specific local real-time data, information on active/unfolding events, or details not likely covered by static documents, use the `GoogleSearch` tool. You MUST specify `GoogleSearch(queries=["
  +:+ Py.dq +:+
  "your targeted search query"
  +:+ Py.dq +:+
  "])`. For example: `GoogleSearch(queries=["
  +:+ Py.dq +:+
  "latest earthquake report California USGS"
  +:+ Py.dq +:+
  ", "
  +:+ Py.dq +:+
  "active wildfire alerts San Diego County"
  +:+ Py.dq +:+
  "])`.
    * Choose the most appropriate tool (RAG context or `GoogleSearch`) based on the nature of the query. If in doubt for real-time or highly specific local data, `GoogleSearch` is often better.

**Example of thinking for tool use:**
User asks: "
  +:+ Py.dq +:+
  "What are the general safety tips for a hurricane?"
  +:+ Py.dq +:+
  "
My thought process: This is general preparedness information, likely in the RAG corpus. I will formulate my answer based on that. (RAG retrieval will happen automatically based on my query).

User asks: "
  +:+ Py.dq +:+
  "Is Hurricane Alpha making landfall in Miami today?"
  +:+ Py.dq +:+
  "
My thought process: This is a real-time, specific event. I need the latest information. I MUST use `GoogleSearch`. I will call `GoogleSearch(queries=["
  +:+ Py.dq +:+
  "Hurricane Alpha landfall Miami today NOAA"
  +:+ Py.dq +:+
  ", "
  +:+ Py.dq +:+
  "Miami-Dade emergency alerts Hurricane Alpha"
  +:+ Py.dq +:+
  "])`.
".

End Prompts.

(** ** crisis_response/agent.py *)

Module AgentPy.
Import Adk.

(** The module's global names after it has been executed. *)
Record Globals := {
  MODEL_NAME : string;
  RAG_CORPUS : option string;
  crisis_rag_retrieval : option Tool;
  search_agent : Agent;
  agent_tools : list Tool;
  root_agent : Agent
}.

Definition search_agent_instruction : string :=
  "
You are an advanced AI, operating as an elite Google Search specialist. Your sole mission is to provide precise, real-time information on crisis situations directly and immediately in response to user requests.

Your Internal Mandate (Execute this process internally with maximum speed and precision; DO NOT describe these steps in your response to the user):

Instantaneous Request Analysis: Upon receiving a user query, immediately dissect it to identify the core components: specific crisis type (e.g., earthquake, wildfire, industrial accident), precise geographic location, and the exact nature of information required (e.g., current status, official advisories, affected zones, casualty reports, humanitarian efforts).

Optimized Search Simulation & Source Prioritization: Internally simulate an optimal Google Search strategy. This includes deploying advanced search operators and real-time filters. Critically prioritize data from the most authoritative and timely sources, such as official government emergency agencies (e.g., FEMA, CalOES, WHO), established international news organizations with strong verification records, and credible non-governmental organizations (NGOs) directly involved.

Rapid Verification & Cross-Referencing: Swiftly evaluate the gathered information for its timeliness, accuracy, and relevance. Internally cross-reference critical details across multiple high-credibility sources to ensure reliability before relaying.

Direct Information Synthesis: Consolidate the verified, most crucial information into a concise, clear, and directly actionable update tailored to the user's query.

Your Output to the User:
Your response must be immediate and consist only of the synthesized real-time information relevant to the crisis. Do not explain your search process, your source evaluation, or your synthesis steps. Begin your response directly with the information. 
Provide answer to the question asked instead of providing unnecessary details.

    ".

Definition rag_warning : string :=
  "RAG_CORPUS environment variable not set. RAG tool will not be available."
  +:+ " The agent will rely solely on Google Search and its internal knowledge.".

(** Lines 27-50: the retrieval tool exists only when [RAG_CORPUS] is
    truthy; otherwise the degraded mode is logged. *)
Definition define_rag_tool (RAG_CORPUS : option string) : M (option Tool) :=
  match RAG_CORPUS with
  | Some corpus =>
      if Py.str_truthy corpus then
        logger_info ("Initializing RAG tool with corpus: " +:+ corpus) ;;
        ret (Some (VertexAiRagRetrieval
               "retrieve_crisis_information"
               ("Use this tool to retrieve information from the curated crisis knowledge base (official documents, guidelines, etc.). "
                +:+ "Use for general procedures, safety tips, and established information.")
               [ {| rag_corpus := corpus |} ]))
      else logger_warning rag_warning ;; ret None
  | None => logger_warning rag_warning ;; ret None
  end.

(** Lines 81-88: the tool list, built by appending. *)
Definition build_agent_tools (crisis_rag_retrieval : option Tool)
    (search_agent : Agent) : list Tool :=
  let agent_tools := [] in
  let agent_tools :=
    match crisis_rag_retrieval with
    | Some r => agent_tools ++ [AgentTool (OfTool r)]
    | None => agent_tools
    end in
  agent_tools ++ [AgentTool (OfAgent search_agent)].

(** The whole module, top to bottom. *)
Definition agent_py : M Globals :=
  Dotenv.load_dotenv false ;;
  MODEL_NAME <- getenv_default "MODEL_NAME" "gemini-2.0-flash" ;;
  RAG_CORPUS <- getenv "RAG_CORPUS" ;;
  crisis_rag_retrieval <- define_rag_tool RAG_CORPUS ;;
  let search_agent :=
    mkAgent MODEL_NAME "GoogleSearch" "" search_agent_instruction
            [google_search] in
  let agent_tools := build_agent_tools crisis_rag_retrieval search_agent in
  logger_info ("Initializing Crisis Response Agent with model: "
               +:+ MODEL_NAME) ;;
  logger_info ("Tools configured: "
               +:+ Py.repr_list (tool_name <$> agent_tools)) ;;
  let root_agent :=
    mkAgent MODEL_NAME "crisis_response_agent"
            "Provides information and assistance during crisis situations."
            Prompts.CRISIS_RESPONSE_SYSTEM_INSTRUCTION
            agent_tools in
  logger_info "Crisis Response Agent initialized successfully." ;;
  ret {| MODEL_NAME := MODEL_NAME; RAG_CORPUS := RAG_CORPUS;
         crisis_rag_retrieval := crisis_rag_retrieval;
         search_agent := search_agent; agent_tools := agent_tools;
         root_agent := root_agent |}.

End AgentPy.

(** ** deployment/deploy.py *)

(** The absl flags, with the names they have on [FLAGS]. *)
Module FLAGS.
Record t := {
  project_id : option string;
  location : option string;
  staging_bucket_name : option string;
  agent_engine_id : option string;
  display_name : string;
  description : string;
  list : bool;
  create : bool;
  delete : bool;
  update : bool
}.
End FLAGS.

Module DeployPy.
Import Adk.

Section Deploy.
Variable ext : External.
Variable F : FLAGS.t.
Variable root_agent : Agent.

Definition _get_config_value (flag_value : option string)
    (env_var_name error_message : string) : M string :=
  value <- match flag_value with
           | Some _ => ret flag_value
           | None => getenv env_var_name
           end ;;
  if negb (Py.truthy value) then
    logger_error error_message ;;
    raise (Py.ValueError error_message)
  else ret (Py.str_opt value).

Definition _update_env_file (key : string) (value : option string)
    : M unit :=
  path <- Dotenv.ENV_FILE_PATH ;;
  try_except
    (present <- Dotenv.exists_ ;;
     (if negb present then
        Dotenv.create_empty ;;
        logger_info ("Created .env file at: " +:+ path)
      else ret ()) ;;
     match value with
     | Some v =>
         Dotenv.set_key key v ;;
         logger_info ("Updated " +:+ key +:+ " in " +:+ path +:+ " to "
                      +:+ v)
     | None =>
         Dotenv.unset_key key ;;
         logger_info ("Removed " +:+ key +:+ " from " +:+ path)
     end)
    Py.is_Exception
    (λ e, logger_error ("Error updating .env file at " +:+ path +:+ ": "
                        +:+ Py.str_exn e)).

Definition _get_adk_app : M AdkApp :=
  logger_info "Preparing ADK App..." ;;
  ret {| agent := root_agent; enable_tracing := true |}.

Definition DEPLOYMENT_REQUIREMENTS : list string :=
  [ "google-adk>=0.1.0";
    "python-dotenv>=1.0.0";
    "google-cloud-aiplatform[adk,agent_engines]>=1.88.0";
    "google-cloud-storage>=2.10.0";
    "google-api-python-client>=2.88.0";
    "requests>=2.31.0";
    "llama-index>=0.12.0";
    "absl-py>=1.4.0" ].
Definition EXTRA_PACKAGES : list string := [ "./crisis_response" ].

Definition create_agent
    (current_location current_staging_bucket_gs_path : string) : M unit :=
  adk_app_instance <- _get_adk_app ;;
  logger_info ("Deploying new agent to Vertex AI Agent Engine in "
               +:+ current_location +:+ "...") ;;
  logger_info ("Using staging bucket: "
               +:+ current_staging_bucket_gs_path) ;;
  logger_info ("Requirements: "
               +:+ Py.repr_list DEPLOYMENT_REQUIREMENTS) ;;
  logger_info ("Extra packages: " +:+ Py.repr_list EXTRA_PACKAGES) ;;
  try_except
    (remote_app <-
       call (AgentEnginesCreate adk_app_instance (FLAGS.display_name F)
               (FLAGS.description F) DEPLOYMENT_REQUIREMENTS
               EXTRA_PACKAGES)
            (agent_engines_create ext) ;;
     logger_info "Deployed agent to Vertex AI Agent Engine successfully!" ;;
     logger_info ("Resource name: "
                  +:+ AgentEngine.resource_name remote_app) ;;
     _update_env_file "AGENT_ENGINE_ID"
                      (Some (AgentEngine.resource_name remote_app)) ;;
     _update_env_file "AGENT_DISPLAY_NAME" (Some (FLAGS.display_name F)))
    Py.is_Exception
    (λ e, logger_error ("Deployment failed: " +:+ Py.str_exn e) ;;
          exit 1).

Definition delete_agent (agent_engine_resource_id : option string)
    : M unit :=
  (if negb (Py.truthy agent_engine_resource_id) then
     logger_error
       ("Agent Engine resource ID is required for deletion. "
        +:+ "Provide --agent_engine_id flag or ensure AGENT_ENGINE_ID is in .env.") ;;
     exit 1
   else ret ()) ;;
  let id := Py.str_opt agent_engine_resource_id in
  logger_info ("Attempting to delete Agent Engine: " +:+ id) ;;
  try_except
    (remote_agent <- call (AgentEnginesGet id) (agent_engines_get ext) ;;
     call_unit (RemoteAgentDelete
                  (AgentEngine.resource_name remote_agent) true)
               (remote_agent_delete ext) ;;
     logger_info ("Successfully deleted Agent Engine: " +:+ id) ;;
     current <- getenv "AGENT_ENGINE_ID" ;;
     if bool_decide (agent_engine_resource_id = current) then
       _update_env_file "AGENT_ENGINE_ID" None ;;
       _update_env_file "AGENT_DISPLAY_NAME" None
     else ret ())
    Py.is_Exception
    (λ e, logger_error ("Failed to delete Agent Engine " +:+ id +:+ ": "
                        +:+ Py.str_exn e) ;;
          exit 1).

Definition agent_template (a : AgentEngine.t) : string :=
  "
    -----------------------------------------
    Resource Name: " +:+ AgentEngine.name a +:+ "
    Display Name: " +:+ Py.dq +:+ AgentEngine.display_name a +:+ Py.dq +:+ "
    Create Time: " +:+ AgentEngine.create_time a +:+ "
    Update Time: " +:+ AgentEngine.update_time a +:+ "
    Description: " +:+ AgentEngine.description a +:+ "
    -----------------------------------------".

Definition list_all_agents (current_project_id current_location : string)
    : M unit :=
  logger_info ("Listing all Agent Engines in project "
               +:+ current_project_id +:+ " location "
               +:+ current_location +:+ "...") ;;
  try_except
    (remote_agents <- call AgentEnginesList (agent_engines_list ext) ;;
     match remote_agents with
     | [] => print "No Agent Engines found."
     | _ =>
         let remote_agents_string :=
           Py.join Py.nl (agent_template <$> remote_agents) in
         print ("Found Agent Engines:" +:+ Py.nl
                +:+ remote_agents_string)
     end)
    Py.is_Exception
    (λ e, logger_error ("Failed to list Agent Engines: "
                        +:+ Py.str_exn e) ;;
          exit 1).

Definition update_agent (agent_engine_resource_id : option string)
    : M unit :=
  (if negb (Py.truthy agent_engine_resource_id) then
     logger_error
       ("Agent Engine resource ID is required for update. "
        +:+ "Provide --agent_engine_id flag or ensure AGENT_ENGINE_ID is in .env.") ;;
     exit 1
   else ret ()) ;;
  let id := Py.str_opt agent_engine_resource_id in
  adk_app_instance <- _get_adk_app ;;
  logger_info ("Attempting to update Agent Engine: " +:+ id) ;;
  logger_info ("New Display Name: " +:+ FLAGS.display_name F) ;;
  logger_info ("New Description: " +:+ FLAGS.description F) ;;
  logger_info ("Requirements: "
               +:+ Py.repr_list DEPLOYMENT_REQUIREMENTS) ;;
  logger_info ("Extra packages: " +:+ Py.repr_list EXTRA_PACKAGES) ;;
  try_except
    (updated_agent <-
       call (AgentEnginesUpdate id adk_app_instance
               (FLAGS.display_name F) (FLAGS.description F)
               DEPLOYMENT_REQUIREMENTS EXTRA_PACKAGES)
            (agent_engines_update ext) ;;
     logger_info ("Successfully updated Agent Engine: "
                  +:+ AgentEngine.resource_name updated_agent) ;;
     current <- getenv "AGENT_ENGINE_ID" ;;
     if bool_decide (agent_engine_resource_id = current)
        || negb (Py.truthy current) then
       _update_env_file "AGENT_ENGINE_ID"
                        (Some (AgentEngine.resource_name updated_agent)) ;;
       _update_env_file "AGENT_DISPLAY_NAME"
                        (Some (FLAGS.display_name F))
     else ret ())
    Py.is_Exception
    (λ e, logger_error ("Failed to update Agent Engine " +:+ id +:+ ": "
                        +:+ Py.str_exn e) ;;
          exit 1).

Definition main : M unit :=
  cfg <-
    try_except
      (current_project_id <-
         _get_config_value (FLAGS.project_id F) "GOOGLE_CLOUD_PROJECT"
           "Error: GOOGLE_CLOUD_PROJECT must be set via flag --project_id or environment variable." ;;
       current_location <-
         _get_config_value (FLAGS.location F) "GOOGLE_CLOUD_LOCATION"
           "Error: GOOGLE_CLOUD_LOCATION must be set via flag --location or environment variable." ;;
       current_staging_bucket_name <-
         _get_config_value (FLAGS.staging_bucket_name F)
           "STAGING_BUCKET_NAME"
           "Error: Staging bucket name must be set via flag --staging_bucket_name or STAGING_BUCKET_NAME in .env." ;;
       ret (current_project_id, current_location,
            current_staging_bucket_name))
      Py.is_ValueError
      (λ _, exit 1) ;;
  let '(current_project_id, current_location,
        current_staging_bucket_name) := cfg in
  let current_staging_bucket_gs_path :=
    "gs://" +:+ current_staging_bucket_name in
  logger_info ("Using Project ID: " +:+ current_project_id) ;;
  logger_info ("Using Location: " +:+ current_location) ;;
  logger_info ("Using Staging Bucket: "
               +:+ current_staging_bucket_gs_path) ;;
  call_unit (VertexaiInit current_project_id current_location
               (Some current_staging_bucket_gs_path))
            (vertexai_init ext) ;;
  agent_id_from_flag_or_env <-
    (if Py.truthy (FLAGS.agent_engine_id F)
     then ret (FLAGS.agent_engine_id F)
     else getenv "AGENT_ENGINE_ID") ;;
  if FLAGS.list F then
    list_all_agents current_project_id current_location
  else if FLAGS.create F then
    create_agent current_location current_staging_bucket_gs_path
  else if FLAGS.delete F then
    (if negb (Py.truthy agent_id_from_flag_or_env) then
       logger_error "Error: --agent_engine_id flag or AGENT_ENGINE_ID in .env is required for delete operation." ;;
       exit 1
     else ret ()) ;;
    delete_agent agent_id_from_flag_or_env
  else if FLAGS.update F then
    (if negb (Py.truthy agent_id_from_flag_or_env) then
       logger_error "Error: --agent_engine_id flag or AGENT_ENGINE_ID in .env is required for update operation." ;;
       exit 1
     else ret ()) ;;
    update_agent agent_id_from_flag_or_env
  else
    logger_info "No action specified. Use --create, --delete, --update, or --list." ;;
    print (Py.nl +:+ "Help: python your_script_name.py --help").

(** [flags.mark_bool_flags_as_mutual_exclusive(["create", "delete",
    "list", "update"])]: at most one of the four may be true. *)
Definition action_flags_exclusive : bool :=
  bool_decide
    (length (filter (λ b, b = true)
               [FLAGS.create F; FLAGS.delete F; FLAGS.list F;
                FLAGS.update F]) ≤ 1).

(** [app.run(main)]: absl parses and validates the flags, leaves with
    status 1 when a validator rejects them, and calls [main] otherwise. *)
Definition app_run : M unit :=
  if action_flags_exclusive then main else exit 1.

End Deploy.

(** Running [python deployment/deploy.py ...]: importing
    [crisis_response.agent] executes that module, then this module's
    [load_dotenv(override=True)], then [app.run(main)]. *)
Definition deploy_py (ext : External) (F : FLAGS.t) : M unit :=
  g <- AgentPy.agent_py ;;
  Dotenv.load_dotenv true ;;
  app_run ext F (AgentPy.root_agent g).

End DeployPy.

(** ** crisis_response/shared_libraries/prepare_crisis_corpus.py *)

(** An entry of [EXAMPLE_DOCUMENTS]: a dict whose ["url"] is read with
    [.get] and whose other keys are read by subscript. *)
Module DocInfo.
Record t := {
  url : option string;
  filename : string;
  description : string
}.
End DocInfo.

Module CorpusPy.

(** The module's configuration constants. *)
Record Globals := {
  PROJECT_ID : string;
  LOCATION : string;
  CORPUS_DISPLAY_NAME : string;
  CORPUS_DESCRIPTION : string
}.

(** Lines 26-45: executed when the module is loaded. *)
Definition module_config : M Globals :=
  Dotenv.load_dotenv false ;;
  PROJECT_ID <- getenv "GOOGLE_CLOUD_PROJECT" ;;
  (if negb (Py.truthy PROJECT_ID) then
     raise (Py.ValueError
       "GOOGLE_CLOUD_PROJECT environment variable not set. Please set it in your .env file.")
   else ret ()) ;;
  LOCATION <- getenv "GOOGLE_CLOUD_LOCATION" ;;
  (if negb (Py.truthy LOCATION) then
     raise (Py.ValueError
       "GOOGLE_CLOUD_LOCATION environment variable not set. Please set it in your .env file.")
   else ret ()) ;;
  CORPUS_DISPLAY_NAME <-
    getenv_default "RAG_CORPUS_DISPLAY_NAME" "Crisis_Response_Corpus" ;;
  CORPUS_DESCRIPTION <-
    getenv_default "RAG_CORPUS_DESCRIPTION"
                   "Corpus for Crisis Response Information Agent" ;;
  ret {| PROJECT_ID := Py.str_opt PROJECT_ID;
         LOCATION := Py.str_opt LOCATION;
         CORPUS_DISPLAY_NAME := CORPUS_DISPLAY_NAME;
         CORPUS_DESCRIPTION := CORPUS_DESCRIPTION |}.

Definition EXAMPLE_DOCUMENTS : list DocInfo.t :=
  [ {| DocInfo.url := Some "https://www.ready.gov/sites/default/files/2024-03/ready.gov_earthquake_hazard-info-sheet.pdf";
       DocInfo.filename := "earthquake_info_sheet.pdf";
       DocInfo.description := "FEMA Earthquake Information Sheet" |};
    {| DocInfo.url := Some "https://www.who.int/docs/default-source/coronaviruse/coping-with-stress.pdf?sfvrsn=9845bc3a_2";
       DocInfo.filename := "who_coping_with_stress.pdf";
       DocInfo.description := "WHO Guide on Coping with Stress During Outbreaks" |} ].

Section Corpus.
Variable ext : External.
Variable G : Globals.

Definition initialize_vertex_ai : M unit :=
  call_unit AuthDefault (auth_default ext) ;;
  call_unit (VertexaiInit (PROJECT_ID G) (LOCATION G) None)
            (vertexai_init ext).

(** The [for ... break] loop of [create_or_get_corpus]: the first corpus
    whose display name matches, announced when found. *)
Fixpoint find_existing_corpus (existing_corpora : list RagCorpus.t)
    : M (option RagCorpus.t) :=
  match existing_corpora with
  | [] => ret None
  | existing_corpus :: rest =>
      if String.eqb (RagCorpus.display_name existing_corpus)
                    (CORPUS_DISPLAY_NAME G)
      then
        print ("Found existing corpus with display name '"
               +:+ CORPUS_DISPLAY_NAME G +:+ "'") ;;
        ret (Some existing_corpus)
      else find_existing_corpus rest
  end.

Definition create_or_get_corpus : M RagCorpus.t :=
  let publisher_model := "publishers/google/models/text-embedding-004" in
  existing_corpora <- call RagListCorpora (rag_list_corpora ext) ;;
  corpus <- find_existing_corpus existing_corpora ;;
  match corpus with
  | None =>
      corpus <- call (RagCreateCorpus (CORPUS_DISPLAY_NAME G)
                        (CORPUS_DESCRIPTION G) publisher_model)
                     (rag_create_corpus ext) ;;
      print ("Created new corpus with display name '"
             +:+ CORPUS_DISPLAY_NAME G +:+ "'") ;;
      ret corpus
  | Some corpus => ret corpus
  end.

(** [requests.get] up to the last chunk written to [output_path]. *)
Definition fetch_to_file (url output_path : string) : M unit :=
  λ w, let w' := with_trace w (trace w ++ [RequestsGet url]) in
       match requests_get ext (trace w') with
       | HttpOk =>
           (Ret (), with_tmp_files w' ({[output_path]} ∪ tmp_files w'))
       | HttpRequestException m created =>
           (Raise (Py.RequestException m),
            if created
            then with_tmp_files w' ({[output_path]} ∪ tmp_files w')
            else w')
       | HttpOtherException m => (Raise (Py.OtherException m), w')
       end.

Definition download_pdf_from_url (url output_path : string) : M bool :=
  print ("Downloading PDF from " +:+ url +:+ "...") ;;
  try_except
    (fetch_to_file url output_path ;;
     print ("PDF downloaded successfully to " +:+ output_path) ;;
     ret true)
    Py.is_RequestException
    (λ e, print ("Error downloading " +:+ url +:+ ": " +:+ Py.str_exn e) ;;
          ret false).

(** The [for] loop of [upload_pdf_to_corpus], which returns from the
    function at the first file with the same display name. *)
Fixpoint find_existing_file (display_name : string)
    (existing_files : list RagFile.t) : M (option RagFile.t) :=
  match existing_files with
  | [] => ret None
  | existing_file :: rest =>
      if String.eqb (RagFile.display_name existing_file) display_name
      then
        print ("File '" +:+ display_name
               +:+ "' already exists in corpus. Skipping upload.") ;;
        ret (Some existing_file)
      else find_existing_file display_name rest
  end.

Definition upload_pdf_to_corpus
    (corpus_name pdf_path display_name description : string)
    : M (option RagFile.t) :=
  print ("Uploading " +:+ display_name +:+ " to corpus...") ;;
  try_except
    (existing_files <- call (RagListFiles corpus_name)
                            (rag_list_files ext) ;;
     found <- find_existing_file display_name existing_files ;;
     match found with
     | Some existing_file => ret (Some existing_file)
     | None =>
         rag_file <- call (RagUploadFile corpus_name pdf_path
                             display_name description)
                          (rag_upload_file ext) ;;
         print ("Successfully uploaded " +:+ display_name
                +:+ " to corpus") ;;
         ret (Some rag_file)
     end)
    Py.is_Exception
    (λ e, print ("Error uploading file " +:+ display_name +:+ ": "
                 +:+ Py.str_exn e) ;;
          ret None).

Definition update_env_file (corpus_name env_file_path : string)
    : M unit :=
  try_except
    (Dotenv.load_dotenv true ;;
     current_value <- getenv "RAG_CORPUS" ;;
     if negb (bool_decide (current_value = Some corpus_name)) then
       Dotenv.set_key "RAG_CORPUS" corpus_name ;;
       print ("Updated RAG_CORPUS in " +:+ env_file_path +:+ " to "
              +:+ corpus_name)
     else
       print ("RAG_CORPUS in " +:+ env_file_path
              +:+ " is already set correctly."))
    Py.is_Exception
    (λ e, print ("Error updating .env file: " +:+ Py.str_exn e)).

Fixpoint print_files (files : list RagFile.t) : M unit :=
  match files with
  | [] => ret ()
  | file :: rest =>
      print ("- " +:+ RagFile.display_name file +:+ " (Name: "
             +:+ RagFile.name file +:+ ")") ;;
      print_files rest
  end.

Definition list_corpus_files (corpus_name : string) : M unit :=
  files <- call (RagListFiles corpus_name) (rag_list_files ext) ;;
  print (Py.nl +:+ "--- Files currently in corpus: " +:+ corpus_name
         +:+ " ---") ;;
  match files with
  | [] => print "No files found."
  | _ =>
      print ("Total files: " +:+ pretty (length files)) ;;
      print_files files
  end ;;
  print "--------------------------------------------------".

(** [pdf_path.exists()] *)
Definition path_exists (p : string) : M bool :=
  λ w, (Ret (bool_decide (p ∈ tmp_files w)), w).

(** The body of the [for doc_info in EXAMPLE_DOCUMENTS] loop; the result
    is the new value of [successful_uploads]. *)
Definition process_document (corpus_name temp_dir : string)
    (doc_info : DocInfo.t) (successful_uploads : nat) : M nat :=
  let pdf_path := temp_dir +:+ "/" +:+ DocInfo.filename doc_info in
  download_successful <-
    (if Py.truthy (DocInfo.url doc_info) then
       download_pdf_from_url (Py.str_opt (DocInfo.url doc_info)) pdf_path
     else
       print ("No URL provided for " +:+ DocInfo.filename doc_info
              +:+ ". Assuming local file (logic not implemented). Skipping.") ;;
       ret false) ;;
  present <- (if download_successful then path_exists pdf_path
              else ret false) ;;
  if download_successful && present then
    rag_file <- upload_pdf_to_corpus corpus_name pdf_path
                  (DocInfo.filename doc_info)
                  (DocInfo.description doc_info) ;;
    if Py.obj_truthy rag_file then ret (successful_uploads + 1)
    else ret successful_uploads
  else if negb (Py.truthy (DocInfo.url doc_info)) then
    ret successful_uploads
  else
    print ("Skipping upload for " +:+ DocInfo.filename doc_info
           +:+ " due to download failure or file not found.") ;;
    ret successful_uploads.

Fixpoint process_documents (corpus_name temp_dir : string)
    (docs : list DocInfo.t) (successful_uploads : nat) : M nat :=
  match docs with
  | [] => ret successful_uploads
  | doc_info :: rest =>
      n <- process_document corpus_name temp_dir doc_info
             successful_uploads ;;
      process_documents corpus_name temp_dir rest n
  end.

(** [with tempfile.TemporaryDirectory() as temp_dir: body]: the directory
    starts empty and is removed when the block is left, however it is
    left. *)
Definition with_temporary_directory {A} (body : string → M A) : M A :=
  λ w, let '(r, w') := body (temp_dir w) (with_tmp_files w ∅) in
       (r, with_tmp_files w' ∅).

(** [main], for any value of the module's document list. *)
Definition main_on (documents : list DocInfo.t) : M unit :=
  initialize_vertex_ai ;;
  corpus <- create_or_get_corpus ;;
  path <- Dotenv.ENV_FILE_PATH ;;
  update_env_file (RagCorpus.name corpus) path ;;
  with_temporary_directory (λ temp_dir,
    print ("Using temporary directory: " +:+ temp_dir) ;;
    successful_uploads <-
      process_documents (RagCorpus.name corpus) temp_dir documents 0 ;;
    print (Py.nl +:+ "Finished processing documents. Successful uploads: "
           +:+ pretty successful_uploads)) ;;
  list_corpus_files (RagCorpus.name corpus).

Definition main : M unit := main_on EXAMPLE_DOCUMENTS.

End Corpus.

(** Running the script: the module-level configuration, then [main()]. *)
Definition prepare_crisis_corpus_py (ext : External) : M unit :=
  G <- module_config ;;
  main ext G.

End CorpusPy.

(** ** Vocabulary of the statements *)

(** [os.environ] as a module sees it after its [load_dotenv(override=...)]. *)
Definition loaded_environ (override : bool) (w : World)
    : gmap string string :=
  environ (Dotenv.load_dotenv override w).2.

(** [os.environ] as [main] of deploy.py sees it: agent.py's [load_dotenv()]
    first, then deploy.py's [load_dotenv(override=True)]. *)
Definition deploy_environ (w : World) : gmap string string :=
  loaded_environ true (Dotenv.load_dotenv false w).2.

(** The [.env] file of [w] records this deployment identity. *)
Definition identity_persisted (w : World) (id display_name : string) : Prop :=
  ∃ f, env_file w = Some f ∧
       f !! "AGENT_ENGINE_ID" = Some id ∧
       f !! "AGENT_DISPLAY_NAME" = Some display_name.

(** The [.env] file of [w] records no deployment identity. *)
Definition identity_cleared (w : World) : Prop :=
  ∃ f, env_file w = Some f ∧
       f !! "AGENT_ENGINE_ID" = None ∧
       f !! "AGENT_DISPLAY_NAME" = None.

(** Between the traces [t0] and [t] the call [e] was recorded and the
    service, asked right then, gave the answer [a]. *)
Definition answered_since {A} (oracle : list Event → A) (t0 t : list Event)
    (e : Event) (a : A) : Prop :=
  ∃ evs, (t0 ++ evs ++ [e]) `prefix_of` t ∧ oracle (t0 ++ evs ++ [e]) = a.

(** [w'] is [w] after some more events, all of which satisfy [P]. *)
Definition extends_by (P : Event → bool) (w w' : World) : Prop :=
  ∃ evs, trace w' = trace w ++ evs ∧ forallb P evs = true.

Definition no_network (e : Event) : bool := negb (is_network_call e).
Definition no_control_plane (e : Event) : bool :=
  negb (is_control_plane_call e).

(** A required setting is missing: neither the flag nor the environment
    gives a non-empty value. *)
Definition config_missing (flag : option string) (key : string)
    (env : gmap string string) : Prop :=
  Py.truthy flag = false ∧ Py.truthy (env !! key) = false.

Definition no_create_corpus (e : Event) : bool :=
  match e with RagCreateCorpus _ _ _ => false | _ => true end.
Definition no_upload (e : Event) : bool :=
  match e with RagUploadFile _ _ _ _ => false | _ => true end.

(** The corpus the resolution loop stops at: the first with the given
    display name; and likewise for files. *)
Definition first_corpus_named (name : string) (cs : list RagCorpus.t)
    : option RagCorpus.t :=
  List.find (λ c, String.eqb (RagCorpus.display_name c) name) cs.

Definition first_file_named (name : string) (fs : list RagFile.t)
    : option RagFile.t :=
  List.find (λ f, String.eqb (RagFile.display_name f) name) fs.

Definition found_corpus_message (G : CorpusPy.Globals) : string :=
  "Found existing corpus with display name '"
  +:+ CorpusPy.CORPUS_DISPLAY_NAME G +:+ "'".

(** The one create call [create_or_get_corpus] can make. *)
Definition create_corpus_call (G : CorpusPy.Globals) : Event :=
  RagCreateCorpus (CorpusPy.CORPUS_DISPLAY_NAME G)
                  (CorpusPy.CORPUS_DESCRIPTION G)
                  "publishers/google/models/text-embedding-004".

(** The line [upload_pdf_to_corpus] prints first. *)
Definition uploading_message (display_name : string) : Event :=
  Print ("Uploading " +:+ display_name +:+ " to corpus...").

(** ** Concrete worlds and services used in the examples *)

Module Examples.

Definition world (env : gmap string string)
    (file : option (gmap string string)) : World :=
  {| environ := env; env_file_path := "/srv/app/.env"; env_file := file;
     env_file_error := None; temp_dir := "/tmp/tmpa1b2c3";
     tmp_files := ∅; trace := [] |}.

Definition engine (id display_name : string) : AgentEngine.t :=
  {| AgentEngine.resource_name := id; AgentEngine.name := id;
     AgentEngine.display_name := display_name;
     AgentEngine.create_time := "2025-05-01";
     AgentEngine.update_time := "2025-05-02";
     AgentEngine.description := "" |}.

(** Services that answer every call successfully: the control plane with
    the engine [e], the RAG service with the given corpora and files. *)
Definition services (e : AgentEngine.t) (corpora : list RagCorpus.t)
    (files : list RagFile.t) (http : Http) : External :=
  {| auth_default := λ _, None;
     vertexai_init := λ _, None;
     agent_engines_create := λ _, inr e;
     agent_engines_get := λ _, inr e;
     remote_agent_delete := λ _, None;
     agent_engines_list := λ _, inr [e];
     agent_engines_update := λ _, inr e;
     rag_list_corpora := λ _, inr corpora;
     rag_create_corpus := λ _,
       inr {| RagCorpus.name := "projects/p/locations/l/ragCorpora/9";
              RagCorpus.display_name := "Crisis_Response_Corpus" |};
     rag_list_files := λ _, inr files;
     rag_upload_file := λ _,
       inr {| RagFile.name := "ragFiles/1";
              RagFile.display_name := "earthquake_info_sheet.pdf" |};
     requests_get := λ _, http |}.

Definition flags : FLAGS.t :=
  {| FLAGS.project_id := None; FLAGS.location := None;
     FLAGS.staging_bucket_name := None; FLAGS.agent_engine_id := None;
     FLAGS.display_name := "Crisis Response Agent";
     FLAGS.description :=
       "Agent providing crisis information using RAG and Search.";
     FLAGS.list := false; FLAGS.create := false;
     FLAGS.delete := false; FLAGS.update := false |}.

Definition flags_for (list create delete update : bool)
    (agent_engine_id : option string) : FLAGS.t :=
  {| FLAGS.project_id := None; FLAGS.location := None;
     FLAGS.staging_bucket_name := None;
     FLAGS.agent_engine_id := agent_engine_id;
     FLAGS.display_name := "Crisis Response Agent";
     FLAGS.description :=
       "Agent providing crisis information using RAG and Search.";
     FLAGS.list := list; FLAGS.create := create;
     FLAGS.delete := delete; FLAGS.update := update |}.

(** A world whose [.env] file cannot be written. *)
Definition read_only_world (env : gmap string string)
    (file : option (gmap string string)) : World :=
  {| environ := env; env_file_path := "/srv/app/.env"; env_file := file;
     env_file_error := Some "[Errno 13] Permission denied";
     temp_dir := "/tmp/tmpa1b2c3"; tmp_files := ∅; trace := [] |}.

(** A complete cloud configuration in the process environment. *)
Definition cloud_env : gmap string string :=
  {[ "GOOGLE_CLOUD_PROJECT" := "proj"; "GOOGLE_CLOUD_LOCATION" := "us-central1";
     "STAGING_BUCKET_NAME" := "bucket" ]}.

(** A [.env] file written by an earlier deployment of [engines/1]. *)
Definition deployed_file : gmap string string :=
  {[ "AGENT_ENGINE_ID" := "engines/1";
     "AGENT_DISPLAY_NAME" := "Crisis Response Agent" ]}.

(** The environment of a process started after that deployment. *)
Definition deployed_env : gmap string string := deployed_file ∪ cloud_env.

Definition some_agent : Adk.Agent :=
  Adk.mkAgent "gemini-2.0-flash" "crisis_response_agent" "" "" [].

(** Services whose every download fails with an HTTP error. *)
Definition offline : External :=
  services (engine "engines/1" "Crisis Response Agent")
    [ {| RagCorpus.name := "projects/p/locations/l/ragCorpora/4";
         RagCorpus.display_name := "Crisis_Response_Corpus" |} ]
    []
    (HttpRequestException "404 Client Error: Not Found" false).

(** The corpus script's constants under an environment that names only the
    project and the location. *)
Definition globals : CorpusPy.Globals :=
  {| CorpusPy.PROJECT_ID := "proj"; CorpusPy.LOCATION := "us-central1";
     CorpusPy.CORPUS_DISPLAY_NAME := "Crisis_Response_Corpus";
     CorpusPy.CORPUS_DESCRIPTION :=
       "Corpus for Crisis Response Information Agent" |}.

Definition existing_corpus : RagCorpus.t :=
  {| RagCorpus.name := "projects/p/locations/l/ragCorpora/4";
     RagCorpus.display_name := "Crisis_Response_Corpus" |}.

Definition existing_file : RagFile.t :=
  {| RagFile.name := "ragFiles/77";
     RagFile.display_name := "earthquake_info_sheet.pdf" |}.

(** Services of a project where the corpus and the first document are
    already there. *)
Definition populated : External :=
  services (engine "engines/1" "Crisis Response Agent")
    [ {| RagCorpus.name := "projects/p/locations/l/ragCorpora/2";
         RagCorpus.display_name := "Another corpus" |};
      existing_corpus ]
    [ existing_file ]
    HttpOk.

End Examples.


(** ** Further vocabulary *)

(** Log lines and prints: what the programs write without calling anyone. *)
Definition is_output (e : Event) : bool :=
  match e with Log _ _ | Print _ => true | _ => false end.

(** The number of action flags that are set. *)
Definition action_count (F : FLAGS.t) : nat :=
  length (filter (λ b, b = true)
            [FLAGS.create F; FLAGS.delete F; FLAGS.list F; FLAGS.update F]).

(** A later process: the environment it is started with, and the [.env]
    file the earlier run [w] left behind. *)
Definition later_process (env : gmap string string) (w : World) : World :=
  {| environ := env; env_file_path := env_file_path w;
     env_file := env_file w; env_file_error := env_file_error w;
     temp_dir := temp_dir w; tmp_files := ∅; trace := [] |}.

Definition is_download_request (e : Event) : bool :=
  match e with RequestsGet _ => true | _ => false end.

Definition no_delete_request (e : Event) : bool :=
  match e with RemoteAgentDelete _ _ => false | _ => true end.

(** Calls to the RAG service. *)
Definition no_rag_call (e : Event) : bool :=
  match e with
  | RagListCorpora | RagCreateCorpus _ _ _ | RagListFiles _
  | RagUploadFile _ _ _ _ => false
  | _ => true
  end.

(** What [.env] gives for a key, when there is a file and it has the key. *)
Definition file_value (w : World) (key : string) : option string :=
  env_file w ≫= (λ f, f !! key).

(** A computation that leaves the environment and the [.env] file (and
    whether it can be written) as they were, however it ends. *)
Definition keeps_settings {A} (m : M A) : Prop :=
  ∀ w o w', m w = (o, w') →
    environ w' = environ w ∧ env_file w' = env_file w ∧
    env_file_error w' = env_file_error w.

Module MoreExamples.

(** Services where every call raises and a download cannot be written. *)
Definition unavailable : External :=
  {| auth_default := λ _, Some (Py.OtherException "no credentials");
     vertexai_init := λ _, None;
     agent_engines_create := λ _, inl (Py.OtherException "503 unavailable");
     agent_engines_get := λ _, inl (Py.OtherException "404 not found");
     remote_agent_delete := λ _, Some (Py.OtherException "503 unavailable");
     agent_engines_list := λ _, inl (Py.OtherException "503 unavailable");
     agent_engines_update := λ _, inl (Py.OtherException "503 unavailable");
     rag_list_corpora := λ _, inl (Py.OtherException "503 unavailable");
     rag_create_corpus := λ _, inl (Py.OtherException "503 unavailable");
     rag_list_files := λ _, inl (Py.OtherException "503 unavailable");
     rag_upload_file := λ _, inl (Py.OtherException "503 unavailable");
     requests_get := λ _,
       HttpOtherException "[Errno 28] No space left on device" |}.

(** Services of a populated project on a machine whose disk is full: each
    download dies while the file is written, with an OSError. *)
Definition disk_full : External :=
  Examples.services (Examples.engine "engines/1" "Crisis Response Agent")
    [ Examples.existing_corpus ] []
    (HttpOtherException "[Errno 28] No space left on device").

(** A document entry that names a local file only. *)
Definition local_document : DocInfo.t :=
  {| DocInfo.url := None; DocInfo.filename := "shelter_map.pdf";
     DocInfo.description := "County shelter map" |}.

Definition earthquake_sheet : DocInfo.t :=
  {| DocInfo.url := Some "https://www.ready.gov/sites/default/files/2024-03/ready.gov_earthquake_hazard-info-sheet.pdf";
     DocInfo.filename := "earthquake_info_sheet.pdf";
     DocInfo.description := "FEMA Earthquake Information Sheet" |}.

End MoreExamples.

(** ** Running the monad in proofs *)

(** Unfold the monad operations call by value, so that a world given by its
    fields stays a flat record. *)
Ltac run :=
  cbv [bind try_except call call_unit logger_info logger_error
       logger_warning print emit ret exit raise getenv getenv_default
       with_trace with_environ with_env_file with_tmp_files
       trace environ env_file env_file_error env_file_path temp_dir
       tmp_files fst snd].

Section MonadLaws.
Context {A B : Type}.

Lemma bind_ret (m : M A) (k : A → M B) w a w1 :
  m w = (Ret a, w1) → bind m k w = k a w1.
Proof. unfold bind. by intros ->. Qed.

Lemma bind_raise (m : M A) (k : A → M B) w e w1 :
  m w = (Raise e, w1) → bind m k w = (Raise e, w1).
Proof. unfold bind. by intros ->. Qed.

Lemma bind_exit (m : M A) (k : A → M B) w c w1 :
  m w = (SysExit c, w1) → bind m k w = (SysExit c, w1).
Proof. unfold bind. by intros ->. Qed.

End MonadLaws.

Lemma prefix_snoc {A} (l : list A) x : l `prefix_of` l ++ [x].
Proof. by apply prefix_app_r. Qed.

Lemma snoc_two {A} (l : list A) x y : l ++ [x; y] = (l ++ [x]) ++ [y].
Proof. by rewrite <- app_assoc. Qed.

Ltac solve_prefix :=
  repeat first [ reflexivity | eassumption
               | (etrans; [|eassumption])
               | (etrans; [|apply prefix_snoc]) ].

Lemma answered_since_intro {A} (oracle : list Event → A) t0 t1 t e a :
  oracle (t1 ++ [e]) = a → t0 `prefix_of` t1 → (t1 ++ [e]) `prefix_of` t →
  answered_since oracle t0 t e a.
Proof.
  intros Hans [evs ->] Hpre. exists evs. by rewrite !(assoc_L (++)).
Qed.

Lemma extends_by_intro P w w' evs :
  trace w' = trace w ++ evs → forallb P evs = true → extends_by P w w'.
Proof. by exists evs. Qed.

Lemma extends_by_refl P w : extends_by P w w.
Proof. exists []. by rewrite app_nil_r. Qed.

Lemma extends_by_trans P w1 w2 w3 :
  extends_by P w1 w2 → extends_by P w2 w3 → extends_by P w1 w3.
Proof.
  intros (e1 & H1 & F1) (e2 & H2 & F2). exists (e1 ++ e2).
  rewrite H2, H1, forallb_app, F1, F2. by rewrite (assoc_L (++)).
Qed.

Lemma extends_by_weaken (P Q : Event → bool) w w' :
  (∀ e, P e = true → Q e = true) → extends_by P w w' → extends_by Q w w'.
Proof.
  intros HPQ (evs & Htr & HP). exists evs. split; [done|].
  apply forallb_forall. intros e He.
  apply HPQ. eapply forallb_forall in HP; eauto.
Qed.

Lemma extends_by_prefix P w w' : extends_by P w w' → trace w `prefix_of` trace w'.
Proof. intros (evs & -> & _). by apply prefix_app_r. Qed.

Lemma no_network_no_control_plane e :
  no_network e = true → no_control_plane e = true.
Proof. by destruct e. Qed.

Ltac solve_extends :=
  first
    [ apply extends_by_refl
    | eapply extends_by_intro;
      [ cbn [trace]; rewrite <- ?app_assoc; cbn [app]; reflexivity
      | reflexivity ] ].

Lemma load_dotenv_ret override w :
  Dotenv.load_dotenv override w = (Ret (), (Dotenv.load_dotenv override w).2).
Proof. unfold Dotenv.load_dotenv. by destruct (env_file w). Qed.

Lemma load_dotenv_trace override w :
  trace (Dotenv.load_dotenv override w).2 = trace w.
Proof. unfold Dotenv.load_dotenv. by destruct (env_file w). Qed.

Lemma load_dotenv_env_file override w :
  env_file (Dotenv.load_dotenv override w).2 = env_file w.
Proof. unfold Dotenv.load_dotenv. by destruct (env_file w) eqn:Hfile. Qed.

Lemma loaded_environ_ext override w w' :
  environ w = environ w' → env_file w = env_file w' →
  loaded_environ override w = loaded_environ override w'.
Proof.
  unfold loaded_environ, Dotenv.load_dotenv. intros Henv Hfile.
  rewrite Hfile. destruct (env_file w'); cbn; by rewrite ?Henv.
Qed.
(** ** agent.py: the assembled tool list and the two agents *)

Section AgentProperties.
Import Adk AgentPy.

Ltac run_agent_py w :=
  unfold agent_py, bind, loaded_environ;
  rewrite (load_dotenv_ret false w);
  try rewrite <- (load_dotenv_trace false w);
  generalize ((Dotenv.load_dotenv false w).2); intros w1;
  cbn [getenv getenv_default fst snd];
  unfold define_rag_tool;
  destruct (environ w1 !! "RAG_CORPUS") as [[|a s]|] eqn:Hcorpus;
  cbn -[Prompts.CRISIS_RESPONSE_SYSTEM_INSTRUCTION search_agent_instruction
        rag_warning].

(** The module always runs to its end, and its globals are read from the
    environment as loaded. *)
Lemma agent_py_returns w :
  ∃ g w', agent_py w = (Ret g, w') ∧
    MODEL_NAME g
      = default "gemini-2.0-flash" (loaded_environ false w !! "MODEL_NAME") ∧
    RAG_CORPUS g = loaded_environ false w !! "RAG_CORPUS" ∧
    (Py.truthy (RAG_CORPUS g) = false → crisis_rag_retrieval g = None) ∧
    search_agent g
      = mkAgent (MODEL_NAME g) "GoogleSearch" "" search_agent_instruction
                [google_search] ∧
    agent_tools g
      = build_agent_tools (crisis_rag_retrieval g) (search_agent g) ∧
    root_agent g
      = mkAgent (MODEL_NAME g) "crisis_response_agent"
          "Provides information and assistance during crisis situations."
          Prompts.CRISIS_RESPONSE_SYSTEM_INSTRUCTION (agent_tools g).
Proof.
  run_agent_py w; eexists _, _; (split; [reflexivity|]); cbn;
    repeat split; auto; discriminate.
Qed.

(** C1 (as the code has it): the tool list of the root agent has exactly one
    capability, the search delegate named GoogleSearch, when RAG_CORPUS is
    unset or empty; it has exactly two, the retrieval capability bound to
    the corpus first and the search delegate second, when RAG_CORPUS is set
    to a non-empty value. *)
Theorem agent_tools_by_rag_corpus (w : World) :
  ∃ g w', agent_py w = (Ret g, w') ∧
    agent_tools_of (root_agent g) = agent_tools g ∧
    agent_name (search_agent g) = "GoogleSearch" ∧
    match loaded_environ false w !! "RAG_CORPUS" with
    | None | Some EmptyString =>
        agent_tools g = [AgentTool (OfAgent (search_agent g))]
    | Some corpus =>
        ∃ description,
          agent_tools g
          = [AgentTool (OfTool (VertexAiRagRetrieval
                                  "retrieve_crisis_information" description
                                  [ {| rag_corpus := corpus |} ]));
             AgentTool (OfAgent (search_agent g))]
    end.
Proof.
  run_agent_py w; eexists _, _; (split; [reflexivity|]); cbn;
    repeat split; eauto.
Qed.

(** C1, as stated, fails: with [RAG_CORPUS=] in the [.env] file the
    variable is set (to the empty string) and the root agent still gets
    one capability, not two. *)
Lemma rag_corpus_set_but_empty :
  let w := Examples.world ∅ (Some {[ "RAG_CORPUS" := "" ]}) in
  loaded_environ false w !! "RAG_CORPUS" = Some "" ∧
  ∃ g w', agent_py w = (Ret g, w') ∧
    tool_name <$> agent_tools_of (root_agent g) = ["GoogleSearch"].
Proof.
  intros w.
  destruct (agent_py_returns w)
    as (g & w' & Hrun & _ & Hcorpus & Hnone & Hsearch & Htools & Hroot).
  assert (Hset : loaded_environ false w !! "RAG_CORPUS" = Some "")
    by reflexivity.
  split; [exact Hset|]. exists g, w'. split; [exact Hrun|].
  rewrite Hroot, Htools, Hnone, Hsearch; [reflexivity|].
  by rewrite Hcorpus, Hset.
Qed.

(** C2: for every environment the names in the tool list are pairwise
    distinct; the retrieval tool, when present, is named
    retrieve_crisis_information and the search delegate GoogleSearch. *)
Theorem agent_tool_names_distinct (w : World) :
  ∃ g w', agent_py w = (Ret g, w') ∧
    NoDup (tool_name <$> agent_tools_of (root_agent g)) ∧
    tool_name (AgentTool (OfAgent (search_agent g))) = "GoogleSearch" ∧
    (∀ r, crisis_rag_retrieval g = Some r →
          tool_name (AgentTool (OfTool r)) = "retrieve_crisis_information") ∧
    agent_tools_of (root_agent g)
    = match crisis_rag_retrieval g with
      | Some r => [AgentTool (OfTool r)]
      | None => []
      end ++ [AgentTool (OfAgent (search_agent g))].
Proof.
  run_agent_py w; eexists _, _; (split; [reflexivity|]); cbn;
    (split; [|repeat split; try done; by intros r [= <-]]).
  - apply NoDup_singleton.
  - apply NoDup_cons; split; [|apply NoDup_singleton].
    rewrite list_elem_of_singleton. discriminate.
  - apply NoDup_singleton.
Qed.

(** C3: when RAG_CORPUS is absent the module raises nothing: the retrieval
    capability is omitted, the warning about the search-only mode is
    logged, and the root agent is constructed with the search delegate as
    its only tool. *)
Theorem absent_rag_corpus_degrades (w : World) :
  loaded_environ false w !! "RAG_CORPUS" = None →
  ∃ g w', agent_py w = (Ret g, w') ∧
    crisis_rag_retrieval g = None ∧
    root_agent g
      = mkAgent (MODEL_NAME g) "crisis_response_agent"
          "Provides information and assistance during crisis situations."
          Prompts.CRISIS_RESPONSE_SYSTEM_INSTRUCTION
          [AgentTool (OfAgent (search_agent g))] ∧
    trace w'
      = trace w ++
        [ Log WARNING "RAG_CORPUS environment variable not set. RAG tool will not be available. The agent will rely solely on Google Search and its internal knowledge.";
          Log INFO ("Initializing Crisis Response Agent with model: "
                    +:+ MODEL_NAME g);
          Log INFO "Tools configured: ['GoogleSearch']";
          Log INFO "Crisis Response Agent initialized successfully." ].
Proof.
  run_agent_py w; intros Habsent; try discriminate.
  eexists _, _; (split; [reflexivity|]); cbn.
  repeat split. by rewrite <- !app_assoc.
Qed.

Lemma absent_rag_corpus_degrades_witness :
  ∃ g w', agent_py (Examples.world ∅ None) = (Ret g, w') ∧
    crisis_rag_retrieval g = None ∧
    agent_tools_of (root_agent g) = [AgentTool (OfAgent (search_agent g))] ∧
    Log WARNING rag_warning ∈ trace w'.
Proof.
  destruct (absent_rag_corpus_degrades (Examples.world ∅ None))
    as (g & w' & Hrun & Hnone & Hroot & Htrace); [reflexivity|].
  exists g, w'. repeat split; [done | done | by rewrite Hroot |].
  rewrite Htrace. apply list_elem_of_here.
Defined.

(** C10: for every environment the root agent and the search delegate are
    constructed with the same model identifier, the value of MODEL_NAME or
    gemini-2.0-flash when MODEL_NAME is unset. *)
Theorem agents_share_model (w : World) :
  ∃ g w', agent_py w = (Ret g, w') ∧
    agent_model (root_agent g) = agent_model (search_agent g) ∧
    agent_model (root_agent g)
    = match loaded_environ false w !! "MODEL_NAME" with
      | Some model => model
      | None => "gemini-2.0-flash"
      end.
Proof.
  run_agent_py w; eexists _, _; (split; [reflexivity|]); cbn;
    split; try done; by destruct (environ w1 !! "MODEL_NAME").
Qed.

End AgentProperties.

(** ** deploy.py: the deployment identity in the [.env] file *)

Section EnvFile.
Import DeployPy.

Lemma update_env_file_ok key value w :
  env_file_error w = None →
  ∃ w', _update_env_file key value w = (Ret (), w') ∧
    env_file w'
      = Some (match value with
              | Some v => <[key := v]> (default ∅ (env_file w))
              | None => delete key (default ∅ (env_file w))
              end) ∧
    env_file_error w' = None ∧ environ w' = environ w ∧
    trace w `prefix_of` trace w'.
Proof.
  destruct w as [env path file err tdir tmp tr]; cbn. intros ->.
  unfold _update_env_file, Dotenv.ENV_FILE_PATH, Dotenv.exists_,
    Dotenv.create_empty, Dotenv.set_key, Dotenv.unset_key.
  run.
  destruct file as [f|], value as [v|]; cbn;
    eexists; (split; [reflexivity|]); cbn;
    (split; [reflexivity|]); (split; [reflexivity|]);
    (split; [reflexivity|]); solve_prefix.
Qed.

End EnvFile.

Section DeployIdentity.
Import Adk DeployPy.
Variable ext : External.
Variable F : FLAGS.t.
Variable root : Agent.

Ltac use_update_env_file :=
  match goal with
  | |- context [_update_env_file ?k ?v ?w] =>
      let w1 := fresh "w" in
      let Hrun := fresh "Hrun" in
      let Hfile := fresh "Hfile" in
      let Herr := fresh "Herr" in
      let Henv := fresh "Henv" in
      let Htr := fresh "Htr" in
      destruct (update_env_file_ok k v w)
        as (w1 & Hrun & Hfile & Herr & Henv & Htr);
      [done | rewrite Hrun;
              cbn [trace env_file environ env_file_error] in * ]
  end.

Ltac ask oracle :=
  match goal with
  | |- context [oracle ext ?t] =>
      let Hans := fresh "Hans" in
      destruct (oracle ext t) eqn:Hans; [discriminate|]
  end.

Lemma create_agent_persists loc bucket w w' :
  env_file_error w = None →
  create_agent ext F root loc bucket w = (Ret (), w') →
  ∃ app,
    answered_since (agent_engines_create ext) (trace w) (trace w')
      (AgentEnginesCreate {| agent := root; enable_tracing := true |}
         (FLAGS.display_name F) (FLAGS.description F)
         DEPLOYMENT_REQUIREMENTS EXTRA_PACKAGES) (inr app) ∧
    identity_persisted w' (AgentEngine.resource_name app)
      (FLAGS.display_name F).
Proof.
  destruct w as [env path file err tdir tmp tr]; cbn.
  intros Hok. unfold create_agent, _get_adk_app. run.
  ask agent_engines_create.
  use_update_env_file. use_update_env_file.
  intros [= <-]. eexists. split.
  - eapply answered_since_intro; [exact Hans| |]; solve_prefix.
  - eexists. split; [exact Hfile0|]. rewrite Hfile.
    cbn [default from_option Datatypes.id].
    split; [|by rewrite lookup_insert_eq].
    rewrite lookup_insert_ne by done. by rewrite lookup_insert_eq.
Qed.

Lemma update_agent_persists id w w' :
  env_file_error w = None →
  update_agent ext F root id w = (Ret (), w') →
  id = environ w !! "AGENT_ENGINE_ID"
  ∨ Py.truthy (environ w !! "AGENT_ENGINE_ID") = false →
  ∃ app,
    answered_since (agent_engines_update ext) (trace w) (trace w')
      (AgentEnginesUpdate (Py.str_opt id)
         {| agent := root; enable_tracing := true |}
         (FLAGS.display_name F) (FLAGS.description F)
         DEPLOYMENT_REQUIREMENTS EXTRA_PACKAGES) (inr app) ∧
    identity_persisted w' (AgentEngine.resource_name app)
      (FLAGS.display_name F).
Proof.
  destruct w as [env path file err tdir tmp tr]; cbn.
  intros Hok. unfold update_agent, _get_adk_app.
  destruct (Py.truthy id); cbn [negb]; run; [|discriminate].
  ask agent_engines_update.
  intros Hrun Hguard.
  assert (Hcond : bool_decide (id = env !! "AGENT_ENGINE_ID")
                  || negb (Py.truthy (env !! "AGENT_ENGINE_ID")) = true).
  { destruct Hguard as [->| ->]; [|by rewrite orb_true_r].
    by rewrite bool_decide_eq_true_2. }
  rewrite Hcond in Hrun. revert Hrun.
  use_update_env_file. use_update_env_file.
  intros [= <-]. eexists. split.
  - eapply answered_since_intro; [exact Hans| |]; solve_prefix.
  - eexists. split; [exact Hfile0|]. rewrite Hfile.
    cbn [default from_option Datatypes.id].
    split; [|by rewrite lookup_insert_eq].
    rewrite lookup_insert_ne by done. by rewrite lookup_insert_eq.
Qed.

Lemma update_agent_other id w w' :
  update_agent ext F root id w = (Ret (), w') →
  id ≠ environ w !! "AGENT_ENGINE_ID" →
  Py.truthy (environ w !! "AGENT_ENGINE_ID") = true →
  env_file w' = env_file w.
Proof.
  destruct w as [env path file err tdir tmp tr]; cbn.
  unfold update_agent, _get_adk_app.
  destruct (Py.truthy id); cbn [negb]; run; [|discriminate].
  ask agent_engines_update.
  intros Hrun Hne Htruthy. rewrite Htruthy in Hrun.
  rewrite bool_decide_eq_false_2 in Hrun by done.
  cbn in Hrun. by injection Hrun as <-.
Qed.

Lemma delete_agent_clears id w w' :
  env_file_error w = None →
  delete_agent ext id w = (Ret (), w') →
  id = environ w !! "AGENT_ENGINE_ID" →
  identity_cleared w'.
Proof.
  destruct w as [env path file err tdir tmp tr]; cbn.
  intros Hok. unfold delete_agent.
  destruct (Py.truthy id); cbn [negb]; run; [|discriminate].
  ask agent_engines_get.
  match goal with
  | |- context [remote_agent_delete ext ?t] =>
      destruct (remote_agent_delete ext t); [discriminate|]
  end.
  intros Hrun ->. rewrite bool_decide_eq_true_2 in Hrun by done.
  revert Hrun. use_update_env_file. use_update_env_file.
  intros [= <-]. eexists. split; [exact Hfile0|]. rewrite Hfile.
  cbn [default from_option Datatypes.id].
  split; [|by rewrite lookup_delete_eq].
  rewrite lookup_delete_ne by done. by rewrite lookup_delete_eq.
Qed.

Lemma delete_agent_other id w w' :
  delete_agent ext id w = (Ret (), w') →
  id ≠ environ w !! "AGENT_ENGINE_ID" →
  env_file w' = env_file w.
Proof.
  destruct w as [env path file err tdir tmp tr]; cbn.
  unfold delete_agent.
  destruct (Py.truthy id); cbn [negb]; run; [|discriminate].
  ask agent_engines_get.
  match goal with
  | |- context [remote_agent_delete ext ?t] =>
      destruct (remote_agent_delete ext t); [discriminate|]
  end.
  intros Hrun Hne. rewrite bool_decide_eq_false_2 in Hrun by done.
  by injection Hrun as <-.
Qed.

(** C4 (as the code has it): provided the [.env] file can be written, after
    a successful create the file holds the resulting resource identifier and
    the display name; after a successful update it holds them when the
    updated identifier is the environment's AGENT_ENGINE_ID or that variable
    is unset or empty, and is left as it was otherwise; after a successful
    delete both keys are cleared when the deleted identifier is the
    environment's AGENT_ENGINE_ID, and the file is left as it was
    otherwise. *)
Theorem deployment_identity_in_env_file (w : World) :
  env_file_error w = None →
  (∀ loc bucket w',
     create_agent ext F root loc bucket w = (Ret (), w') →
     ∃ app,
       answered_since (agent_engines_create ext) (trace w) (trace w')
         (AgentEnginesCreate {| agent := root; enable_tracing := true |}
            (FLAGS.display_name F) (FLAGS.description F)
            DEPLOYMENT_REQUIREMENTS EXTRA_PACKAGES) (inr app) ∧
       identity_persisted w' (AgentEngine.resource_name app)
         (FLAGS.display_name F)) ∧
  (∀ id w',
     update_agent ext F root id w = (Ret (), w') →
     (id = environ w !! "AGENT_ENGINE_ID"
      ∨ Py.truthy (environ w !! "AGENT_ENGINE_ID") = false →
      ∃ app,
        answered_since (agent_engines_update ext) (trace w) (trace w')
          (AgentEnginesUpdate (Py.str_opt id)
             {| agent := root; enable_tracing := true |}
             (FLAGS.display_name F) (FLAGS.description F)
             DEPLOYMENT_REQUIREMENTS EXTRA_PACKAGES) (inr app) ∧
        identity_persisted w' (AgentEngine.resource_name app)
          (FLAGS.display_name F)) ∧
     (id ≠ environ w !! "AGENT_ENGINE_ID" →
      Py.truthy (environ w !! "AGENT_ENGINE_ID") = true →
      env_file w' = env_file w)) ∧
  (∀ id w',
     delete_agent ext id w = (Ret (), w') →
     (id = environ w !! "AGENT_ENGINE_ID" → identity_cleared w') ∧
     (id ≠ environ w !! "AGENT_ENGINE_ID" → env_file w' = env_file w)).
Proof.
  intros Hok. split; [|split].
  - intros loc bucket w' Hrun. by eapply create_agent_persists.
  - intros id w' Hrun. split.
    + by eapply update_agent_persists.
    + by eapply update_agent_other.
  - intros id w' Hrun. split.
    + by eapply delete_agent_clears.
    + by eapply delete_agent_other.
Qed.

End DeployIdentity.

Section DeployIdentityExamples.
Import Adk DeployPy.

Lemma deployment_identity_in_env_file_witness :
  let ext := Examples.services
               (Examples.engine "engines/1" "Crisis Response Agent")
               [] [] HttpOk in
  let F := Examples.flags in
  let root := Examples.some_agent in
  identity_persisted
    (create_agent ext F root "us-central1" "gs://bucket"
       (Examples.world Examples.cloud_env None)).2
    "engines/1" "Crisis Response Agent" ∧
  identity_persisted
    (update_agent ext F root (Some "engines/1")
       (Examples.world Examples.deployed_env
          (Some Examples.deployed_file))).2
    "engines/1" "Crisis Response Agent" ∧
  identity_cleared
    (delete_agent ext (Some "engines/1")
       (Examples.world Examples.deployed_env
          (Some Examples.deployed_file))).2.
Proof.
  intros ext F root.
  set (w0 := Examples.world Examples.cloud_env None).
  set (w1 := Examples.world Examples.deployed_env
               (Some Examples.deployed_file)).
  assert (Hcreated :
    create_agent ext F root "us-central1" "gs://bucket" w0
    = (Ret (), (create_agent ext F root "us-central1" "gs://bucket" w0).2))
    by (vm_compute; reflexivity).
  assert (Hupdated :
    update_agent ext F root (Some "engines/1") w1
    = (Ret (), (update_agent ext F root (Some "engines/1") w1).2))
    by (vm_compute; reflexivity).
  assert (Hdeleted :
    delete_agent ext (Some "engines/1") w1
    = (Ret (), (delete_agent ext (Some "engines/1") w1).2))
    by (vm_compute; reflexivity).
  assert (Hsame : Some "engines/1" = environ w1 !! "AGENT_ENGINE_ID")
    by (vm_compute; reflexivity).
  split; [|split].
  - destruct (deployment_identity_in_env_file ext F root w0 eq_refl)
      as (Hcreate & _ & _).
    destruct (Hcreate _ _ _ Hcreated) as (app & (evs & _ & Hans) & Hid).
    injection Hans as <-. exact Hid.
  - destruct (deployment_identity_in_env_file ext F root w1 eq_refl)
      as (_ & Hupdate & _).
    destruct (Hupdate _ _ Hupdated) as (Hpersisted & _).
    destruct (Hpersisted (or_introl Hsame))
      as (app & (evs & _ & Hans) & Hid).
    injection Hans as <-. exact Hid.
  - destruct (deployment_identity_in_env_file ext F root w1 eq_refl)
      as (_ & _ & Hdelete).
    destruct (Hdelete _ _ Hdeleted) as (Hcleared & _).
    exact (Hcleared Hsame).
Defined.

(** C4, as stated, fails.  With [engines/1] recorded in [.env], a successful
    [--update --agent_engine_id=engines/2] leaves [engines/1] in the file,
    and a successful [--delete --agent_engine_id=engines/2] clears nothing;
    and a successful [--create] records nothing when the file cannot be
    written. *)
Lemma deployment_identity_counterexample :
  let ext := Examples.services
               (Examples.engine "engines/2" "Crisis Response Agent")
               [] [] HttpOk in
  let w := Examples.world Examples.cloud_env (Some Examples.deployed_file) in
  let updated :=
    deploy_py ext (Examples.flags_for false false false true
                     (Some "engines/2")) w in
  let deleted :=
    deploy_py ext (Examples.flags_for false false true false
                     (Some "engines/2")) w in
  let created :=
    deploy_py ext (Examples.flags_for false true false false None)
      (Examples.read_only_world Examples.cloud_env None) in
  (updated.1 = Ret () ∧
   ¬ identity_persisted updated.2 "engines/2" "Crisis Response Agent") ∧
  (deleted.1 = Ret () ∧ ¬ identity_cleared deleted.2) ∧
  (created.1 = Ret () ∧
   ¬ identity_persisted created.2 "engines/2" "Crisis Response Agent").
Proof.
  intros ext w updated deleted created.
  assert (Hupdated : env_file updated.2 = Some Examples.deployed_file)
    by (vm_compute; reflexivity).
  assert (Hdeleted : env_file deleted.2 = Some Examples.deployed_file)
    by (vm_compute; reflexivity).
  assert (Hcreated : env_file created.2 = None)
    by (vm_compute; reflexivity).
  split; [|split]; (split; [vm_compute; reflexivity|]).
  - intros (f & Hf & Hid & _). rewrite Hupdated in Hf.
    injection Hf as <-. vm_compute in Hid. discriminate.
  - intros (f & Hf & Hid & _). rewrite Hdeleted in Hf.
    injection Hf as <-. vm_compute in Hid. discriminate.
  - intros (f & Hf & _). rewrite Hcreated in Hf. discriminate.
Qed.

End DeployIdentityExamples.

(** ** deploy.py: validation before any call *)

Section DeployStartup.
Import Adk AgentPy.

(** Importing agent.py only reads the environment and logs. *)
Lemma agent_py_quiet w :
  ∃ g w1, agent_py w = (Ret g, w1) ∧
    environ w1 = loaded_environ false w ∧ env_file w1 = env_file w ∧
    extends_by no_network w w1.
Proof.
  destruct w as [env path file err tdir tmp tr].
  unfold agent_py, define_rag_tool, loaded_environ, Dotenv.load_dotenv.
  destruct file as [f|]; run;
    match goal with
    | |- context [?e !! "RAG_CORPUS"] =>
        destruct (e !! "RAG_CORPUS") as [[|a s]|]
    end;
    cbn [Py.str_truthy]; run;
    eexists _, _; (split; [reflexivity|]);
    (split; [reflexivity|]); (split; [reflexivity|]); solve_extends.
Qed.

End DeployStartup.

Section DeployMain.
Import Adk DeployPy.
Variable ext : External.
Variable F : FLAGS.t.

Lemma get_config_value_missing flag key msg w :
  config_missing flag key (environ w) →
  _get_config_value flag key msg w
  = (Raise (Py.ValueError msg), with_trace w (trace w ++ [Log ERROR msg])).
Proof.
  intros [Hflag Henv]. unfold _get_config_value, bind, getenv, ret.
  destruct flag as [v|]; [rewrite Hflag|rewrite Henv]; reflexivity.
Qed.

Lemma get_config_value_total flag key msg w :
  (∃ v, _get_config_value flag key msg w = (Ret v, w)) ∨
  _get_config_value flag key msg w
  = (Raise (Py.ValueError msg), with_trace w (trace w ++ [Log ERROR msg])).
Proof.
  unfold _get_config_value, bind, getenv, ret.
  destruct flag as [v|].
  - destruct (Py.truthy (Some v)); cbn; eauto.
  - destruct (Py.truthy (environ w !! key)); cbn; eauto.
Qed.

Ltac config_step :=
  match goal with
  | |- context [_get_config_value ?f ?k ?m ?w] =>
      let v := fresh "v" in
      let Hv := fresh "Hv" in
      destruct (get_config_value_total f k m w) as [[v Hv]|Hv];
      rewrite Hv; clear Hv; cbv beta iota
  end.

Ltac config_missing_step H :=
  match goal with
  | |- context [_get_config_value ?f ?k ?m ?w] =>
      rewrite (get_config_value_missing f k m w) by exact H;
      cbv beta iota
  end.

Ltac finish :=
  repeat eexists;
  first [ reflexivity | solve_extends ].

Lemma main_missing_config root w :
  config_missing (FLAGS.project_id F) "GOOGLE_CLOUD_PROJECT" (environ w) ∨
  config_missing (FLAGS.location F) "GOOGLE_CLOUD_LOCATION" (environ w) ∨
  config_missing (FLAGS.staging_bucket_name F) "STAGING_BUCKET_NAME"
                 (environ w) →
  ∃ w', main ext F root w = (SysExit 1, w') ∧ extends_by no_network w w'.
Proof.
  intros Hmissing. unfold main. unfold bind at 1. unfold try_except.
  unfold bind at 1 2 3. unfold exit at 1, ret at 1.
  destruct Hmissing as [H|[H|H]].
  - config_missing_step H. eexists; split; [reflexivity|solve_extends].
  - config_step; [config_missing_step H|];
      (eexists; split; [reflexivity|solve_extends]).
  - config_step; [config_step; [config_missing_step H|]|];
      (eexists; split; [reflexivity|solve_extends]).
Qed.

Lemma main_delete_without_id root w :
  FLAGS.list F = false → FLAGS.create F = false → FLAGS.delete F = true →
  Py.truthy (FLAGS.agent_engine_id F) = false →
  Py.truthy (environ w !! "AGENT_ENGINE_ID") = false →
  ∃ o w', main ext F root w = (o, w') ∧ exit_status o = 1%Z ∧
          extends_by no_control_plane w w'.
Proof.
  intros Hlist Hcreate Hdelete Hflag Henv.
  destruct w as [env path file err tdir tmp tr]. cbn in Henv.
  unfold main. unfold bind at 1. unfold try_except.
  unfold bind at 1 2 3. unfold exit at 1, ret at 1.
  config_step; [config_step; [config_step|]|];
    try (eexists _, _; split; [reflexivity|]; split;
         [reflexivity|solve_extends]).
  rewrite Hlist, Hcreate, Hdelete, Hflag. run.
  match goal with
  | |- context [vertexai_init ext ?t] =>
      destruct (vertexai_init ext t) as [e|]
  end.
  - eexists _, _; split; [reflexivity|]; split; [reflexivity|solve_extends].
  - rewrite Henv. cbn [negb]. run.
    eexists _, _; split; [reflexivity|]; split; [reflexivity|solve_extends].
Qed.

(** The start of the program: agent.py is imported, the [.env] file is
    loaded over the environment, and absl hands over to [app_run]. *)
Lemma deploy_py_startup w :
  ∃ g w2, deploy_py ext F w = app_run ext F (AgentPy.root_agent g) w2 ∧
    environ w2 = deploy_environ w ∧ extends_by no_network w w2.
Proof.
  destruct (agent_py_quiet w) as (g & w1 & Hrun & Henv & Hfile & Hext).
  exists g, (Dotenv.load_dotenv true w1).2. split; [|split].
  - unfold deploy_py. rewrite (bind_ret _ _ _ _ _ Hrun).
    by rewrite (bind_ret _ _ _ _ _ (load_dotenv_ret true w1)).
  - unfold deploy_environ. apply loaded_environ_ext; [done|].
    by rewrite Hfile, load_dotenv_env_file.
  - destruct Hext as (evs & Htr & Hall). exists evs.
    by rewrite load_dotenv_trace.
Qed.

Lemma exclusive_delete :
  action_flags_exclusive F = true → FLAGS.delete F = true →
  FLAGS.list F = false ∧ FLAGS.create F = false.
Proof.
  unfold action_flags_exclusive. intros Hex Hdelete. rewrite Hdelete in Hex.
  destruct (FLAGS.list F), (FLAGS.create F), (FLAGS.update F);
    vm_compute in Hex; done.
Qed.

(** C5: [--delete] with an agent identifier in neither the flag nor the
    environment ends the process with status 1, and nothing is sent to the
    control plane before that. *)
Theorem delete_without_identifier_exits (w : World) :
  FLAGS.delete F = true →
  Py.truthy (FLAGS.agent_engine_id F) = false →
  Py.truthy (deploy_environ w !! "AGENT_ENGINE_ID") = false →
  ∃ o w', deploy_py ext F w = (o, w') ∧
    exit_status o = 1%Z ∧ exit_status o ≠ 0%Z ∧
    extends_by no_control_plane w w'.
Proof.
  intros Hdelete Hflag Henv.
  destruct (deploy_py_startup w) as (g & w2 & -> & Henv2 & Hext).
  apply (extends_by_weaken _ _ _ _ no_network_no_control_plane) in Hext.
  unfold app_run. destruct (action_flags_exclusive F) eqn:Hex.
  - destruct (exclusive_delete Hex Hdelete) as [Hlist Hcreate].
    rewrite <- Henv2 in Henv.
    destruct (main_delete_without_id (AgentPy.root_agent g) w2
                Hlist Hcreate Hdelete Hflag Henv)
      as (o & w' & Hrun & Hstatus & Hext').
    exists o, w'. rewrite Hstatus. repeat split; try done.
    by eapply extends_by_trans.
  - exists (SysExit 1), w2. repeat split; done.
Qed.

(** The deployment half of C9. *)
Lemma deploy_py_missing_config w :
  config_missing (FLAGS.project_id F) "GOOGLE_CLOUD_PROJECT"
                 (deploy_environ w) ∨
  config_missing (FLAGS.location F) "GOOGLE_CLOUD_LOCATION"
                 (deploy_environ w) ∨
  config_missing (FLAGS.staging_bucket_name F) "STAGING_BUCKET_NAME"
                 (deploy_environ w) →
  ∃ w', deploy_py ext F w = (SysExit 1, w') ∧ extends_by no_network w w'.
Proof.
  intros Hmissing.
  destruct (deploy_py_startup w) as (g & w2 & -> & Henv2 & Hext).
  unfold app_run. destruct (action_flags_exclusive F).
  - rewrite <- Henv2 in Hmissing.
    destruct (main_missing_config (AgentPy.root_agent g) w2 Hmissing)
      as (w' & Hrun & Hext').
    exists w'. split; [done|]. by eapply extends_by_trans.
  - by exists w2.
Qed.

End DeployMain.

Lemma delete_without_identifier_exits_witness :
  let ext := Examples.services
               (Examples.engine "engines/1" "Crisis Response Agent")
               [] [] HttpOk in
  let F := Examples.flags_for false false true false None in
  let w := Examples.world Examples.cloud_env None in
  ∃ o w', DeployPy.deploy_py ext F w = (o, w') ∧ exit_status o = 1%Z ∧
          extends_by no_control_plane w w'.
Proof.
  intros ext F w.
  assert (Henv : Py.truthy (deploy_environ w !! "AGENT_ENGINE_ID") = false)
    by (vm_compute; reflexivity).
  destruct (delete_without_identifier_exits ext F w eq_refl eq_refl Henv)
    as (o & w' & Hrun & Hstatus & _ & Hext).
  by exists o, w'.
Defined.

(** ** prepare_crisis_corpus.py *)

Section CorpusProperties.
Import CorpusPy.
Variable ext : External.
Variable G : Globals.

Lemma find_existing_corpus_run cs w :
  find_existing_corpus G cs w
  = match first_corpus_named (CORPUS_DISPLAY_NAME G) cs with
    | Some c =>
        (Ret (Some c), with_trace w (trace w ++ [Print (found_corpus_message G)]))
    | None => (Ret None, w)
    end.
Proof.
  induction cs as [|c cs IH]; [reflexivity|]. cbn [find_existing_corpus].
  unfold first_corpus_named in *. cbn [List.find].
  destruct (String.eqb _ _); [reflexivity|exact IH].
Qed.

Lemma find_existing_file_run name fs w :
  find_existing_file name fs w
  = match first_file_named name fs with
    | Some f =>
        (Ret (Some f),
         with_trace w
           (trace w ++ [Print ("File '" +:+ name
                               +:+ "' already exists in corpus. Skipping upload.")]))
    | None => (Ret None, w)
    end.
Proof.
  induction fs as [|f fs IH]; [reflexivity|]. cbn [find_existing_file].
  unfold first_file_named in *. cbn [List.find].
  destruct (String.eqb _ _); [reflexivity|exact IH].
Qed.

Lemma first_corpus_named_Some name cs c :
  first_corpus_named name cs = Some c →
  c ∈ cs ∧ RagCorpus.display_name c = name.
Proof.
  intros Hfind. apply find_some in Hfind as [Hin Heq].
  split; [by apply list_elem_of_In|by apply String.eqb_eq].
Qed.

Lemma first_corpus_named_None name cs :
  first_corpus_named name cs = None ↔
  ∀ c, c ∈ cs → RagCorpus.display_name c ≠ name.
Proof.
  split.
  - intros Hfind c Hin Heq.
    eapply find_none in Hfind; [|by apply list_elem_of_In].
    apply String.eqb_neq in Hfind. done.
  - intros Hnone. destruct (first_corpus_named name cs) as [c|] eqn:Hfind;
      [|done].
    apply first_corpus_named_Some in Hfind as [Hin Heq].
    by destruct (Hnone c Hin).
Qed.

Lemma first_file_named_Some name fs f :
  first_file_named name fs = Some f →
  f ∈ fs ∧ RagFile.display_name f = name.
Proof.
  intros Hfind. apply find_some in Hfind as [Hin Heq].
  split; [by apply list_elem_of_In|by apply String.eqb_eq].
Qed.

Lemma first_file_named_None name fs :
  first_file_named name fs = None ↔
  ∀ f, f ∈ fs → RagFile.display_name f ≠ name.
Proof.
  split.
  - intros Hfind f Hin Heq.
    eapply find_none in Hfind; [|by apply list_elem_of_In].
    apply String.eqb_neq in Hfind. done.
  - intros Hnone. destruct (first_file_named name fs) as [f|] eqn:Hfind;
      [|done].
    apply first_file_named_Some in Hfind as [Hin Heq].
    by destruct (Hnone f Hin).
Qed.

(** What [create_or_get_corpus] does, by the answer to the listing. *)
Lemma create_or_get_corpus_run w :
  ∃ o w', create_or_get_corpus ext G w = (o, w') ∧
    match rag_list_corpora ext (trace w ++ [RagListCorpora]) with
    | inl e => o = Raise e ∧ extends_by no_create_corpus w w'
    | inr cs =>
        match first_corpus_named (CORPUS_DISPLAY_NAME G) cs with
        | Some c => o = Ret c ∧ extends_by no_create_corpus w w'
        | None =>
            ∃ a, answered_since (rag_create_corpus ext) (trace w) (trace w')
                   (create_corpus_call G) a ∧
                 o = match a with inr c => Ret c | inl e => Raise e end
        end
    end.
Proof.
  destruct w as [env path file err tdir tmp tr].
  unfold create_or_get_corpus. unfold bind at 1. unfold call at 1.
  cbn [trace with_trace environ env_file env_file_path env_file_error
       temp_dir tmp_files].
  destruct (rag_list_corpora ext (tr ++ [RagListCorpora])) as [e|cs].
  { eexists _, _. split; [reflexivity|]. split; [done|solve_extends]. }
  unfold bind at 1. rewrite find_existing_corpus_run.
  destruct (first_corpus_named (CORPUS_DISPLAY_NAME G) cs) as [c|].
  { run. eexists _, _. split; [reflexivity|]. split; [done|solve_extends]. }
  run.
  match goal with
  | |- context [rag_create_corpus ext ?t] =>
      destruct (rag_create_corpus ext t) as [e|c] eqn:Hans
  end.
  - eexists _, _. split; [reflexivity|]. exists (inl e). split; [|done].
    eapply answered_since_intro; [exact Hans| |]; solve_prefix.
  - eexists _, _. split; [reflexivity|]. exists (inr c). split; [|done].
    eapply answered_since_intro; [exact Hans| |]; solve_prefix.
Qed.

(** C6: when the listed corpora contain one with the configured display
    name, that existing corpus is returned and no create call is made; a
    corpus is created only when the listing has no such corpus, and then the
    created corpus is the result. *)
Theorem create_or_get_corpus_idempotent (w : World) (cs : list RagCorpus.t) :
  rag_list_corpora ext (trace w ++ [RagListCorpora]) = inr cs →
  ∃ o w', create_or_get_corpus ext G w = (o, w') ∧
    ((∃ c, c ∈ cs ∧ RagCorpus.display_name c = CORPUS_DISPLAY_NAME G) →
     ∃ c, o = Ret c ∧ c ∈ cs ∧
          RagCorpus.display_name c = CORPUS_DISPLAY_NAME G ∧
          first_corpus_named (CORPUS_DISPLAY_NAME G) cs = Some c ∧
          extends_by no_create_corpus w w') ∧
    ((∀ c, c ∈ cs → RagCorpus.display_name c ≠ CORPUS_DISPLAY_NAME G) →
     ∃ a, answered_since (rag_create_corpus ext) (trace w) (trace w')
            (create_corpus_call G) a ∧
          o = match a with inr c => Ret c | inl e => Raise e end) ∧
    (¬ extends_by no_create_corpus w w' →
     ∀ c, c ∈ cs → RagCorpus.display_name c ≠ CORPUS_DISPLAY_NAME G).
Proof.
  intros Hlist.
  destruct (create_or_get_corpus_run w) as (o & w' & Hrun & Hcases).
  rewrite Hlist in Hcases. exists o, w'. split; [exact Hrun|].
  destruct (first_corpus_named (CORPUS_DISPLAY_NAME G) cs) as [c|] eqn:Hfind.
  - destruct Hcases as [-> Hext].
    destruct (first_corpus_named_Some _ _ _ Hfind) as [Hin Hname].
    split; [|split].
    + intros _. by exists c.
    + intros Hnone. by destruct (Hnone c Hin).
    + intros Hcreated. by destruct Hcreated.
  - pose proof (proj1 (first_corpus_named_None _ _) Hfind) as Hnone.
    split; [|split].
    + intros (c & Hin & Hname). by destruct (Hnone c Hin).
    + intros _. exact Hcases.
    + intros _. exact Hnone.
Qed.


(** What [upload_pdf_to_corpus] does, by the answer to the listing. *)
Lemma upload_pdf_to_corpus_run corpus_name pdf_path display_name description w :
  ∃ o w',
    upload_pdf_to_corpus ext corpus_name pdf_path display_name description w
    = (Ret o, w') ∧
    match rag_list_files ext
            (trace w ++ [uploading_message display_name;
                         RagListFiles corpus_name]) with
    | inl e => o = None ∧ extends_by no_upload w w'
    | inr fs =>
        match first_file_named display_name fs with
        | Some f => o = Some f ∧ extends_by no_upload w w'
        | None =>
            ∃ a, answered_since (rag_upload_file ext) (trace w) (trace w')
                   (RagUploadFile corpus_name pdf_path display_name
                                  description) a ∧
                 o = match a with inr f => Some f | inl _ => None end
        end
    end.
Proof.
  destruct w as [env path file err tdir tmp tr].
  unfold upload_pdf_to_corpus, uploading_message.
  unfold bind at 1, print at 1, emit at 1. unfold try_except at 1.
  unfold bind at 1, call at 1.
  cbn [trace with_trace environ env_file env_file_path env_file_error
       temp_dir tmp_files].
  rewrite <- (app_assoc tr [_] [_]). cbn [app].
  match goal with
  | |- context [rag_list_files ext ?t] =>
      destruct (rag_list_files ext t) as [e|fs]
  end.
  { run. eexists _, _. split; [reflexivity|]. split; [done|solve_extends]. }
  unfold bind at 1. rewrite find_existing_file_run.
  destruct (first_file_named display_name fs) as [f|].
  { run. eexists _, _. split; [reflexivity|]. split; [done|solve_extends]. }
  run.
  match goal with
  | |- context [rag_upload_file ext ?t] =>
      destruct (rag_upload_file ext t) as [e|f] eqn:Hans
  end.
  - eexists _, _. split; [reflexivity|]. exists (inl e). split; [|done].
    eapply answered_since_intro; [exact Hans| |].
    + by apply prefix_app_r.
    + solve_prefix.
  - eexists _, _. split; [reflexivity|]. exists (inr f). split; [|done].
    eapply answered_since_intro; [exact Hans| |].
    + by apply prefix_app_r.
    + solve_prefix.
Qed.

(** C7: when the corpus's files already include one with the document's
    display name, no upload call is made and that existing file is returned;
    the upload call is made only when no listed file has that display
    name. *)
Theorem upload_pdf_to_corpus_idempotent
    (corpus_name pdf_path display_name description : string)
    (w : World) (fs : list RagFile.t) :
  rag_list_files ext
    (trace w ++ [uploading_message display_name; RagListFiles corpus_name])
  = inr fs →
  ∃ o w',
    upload_pdf_to_corpus ext corpus_name pdf_path display_name description w
    = (Ret o, w') ∧
    ((∃ f, f ∈ fs ∧ RagFile.display_name f = display_name) →
     ∃ f, o = Some f ∧ f ∈ fs ∧ RagFile.display_name f = display_name ∧
          first_file_named display_name fs = Some f ∧
          extends_by no_upload w w') ∧
    ((∀ f, f ∈ fs → RagFile.display_name f ≠ display_name) →
     ∃ a, answered_since (rag_upload_file ext) (trace w) (trace w')
            (RagUploadFile corpus_name pdf_path display_name description) a ∧
          o = match a with inr f => Some f | inl _ => None end) ∧
    (¬ extends_by no_upload w w' →
     ∀ f, f ∈ fs → RagFile.display_name f ≠ display_name).
Proof.
  intros Hlist.
  destruct (upload_pdf_to_corpus_run corpus_name pdf_path display_name
              description w) as (o & w' & Hrun & Hcases).
  rewrite Hlist in Hcases. exists o, w'. split; [exact Hrun|].
  destruct (first_file_named display_name fs) as [f|] eqn:Hfind.
  - destruct Hcases as [-> Hext].
    destruct (first_file_named_Some _ _ _ Hfind) as [Hin Hname].
    split; [|split].
    + intros _. by exists f.
    + intros Hnone. by destruct (Hnone f Hin).
    + intros Hupload. by destruct Hupload.
  - pose proof (proj1 (first_file_named_None _ _) Hfind) as Hnone.
    split; [|split].
    + intros (f & Hin & Hname). by destruct (Hnone f Hin).
    + intros _. exact Hcases.
    + intros _. exact Hnone.
Qed.

(** C8 (as the code has it): a document whose download fails with a request
    error is reported,
    its upload is skipped after that single attempt, the upload count is
    unchanged, and the loop goes on with the remaining documents. *)
Theorem download_failure_skips_document
    (corpus_name temp_dir : string) (doc : DocInfo.t)
    (rest : list DocInfo.t) (n : nat) (w : World)
    (u msg : string) (created : bool) :
  DocInfo.url doc = Some u →
  Py.str_truthy u = true →
  requests_get ext
    (trace w ++ [Print ("Downloading PDF from " +:+ u +:+ "...");
                 RequestsGet u])
  = HttpRequestException msg created →
  ∃ w1,
    process_document ext corpus_name temp_dir doc n w = (Ret n, w1) ∧
    trace w1
    = trace w ++
      [ Print ("Downloading PDF from " +:+ u +:+ "...");
        RequestsGet u;
        Print ("Error downloading " +:+ u +:+ ": " +:+ msg);
        Print ("Skipping upload for " +:+ DocInfo.filename doc
               +:+ " due to download failure or file not found.") ] ∧
    process_documents ext corpus_name temp_dir (doc :: rest) n w
    = process_documents ext corpus_name temp_dir rest n w1.
Proof.
  intros Hurl Htruthy Hget.
  assert (Hstep : ∃ w1,
    process_document ext corpus_name temp_dir doc n w = (Ret n, w1) ∧
    trace w1
    = trace w ++
      [ Print ("Downloading PDF from " +:+ u +:+ "...");
        RequestsGet u;
        Print ("Error downloading " +:+ u +:+ ": " +:+ msg);
        Print ("Skipping upload for " +:+ DocInfo.filename doc
               +:+ " due to download failure or file not found.") ]).
  { destruct w as [env path file err tdir tmp tr]. cbn [trace] in *.
    rewrite (snoc_two tr) in Hget.
    unfold process_document, download_pdf_from_url, fetch_to_file,
      path_exists.
    rewrite Hurl. cbn [Py.truthy Py.str_opt]. rewrite Htruthy.
    run. rewrite Hget. cbn [Py.is_RequestException Py.str_exn].
    destruct created; cbn [andb]; run;
      (eexists; split; [reflexivity|]); cbn [trace];
      by rewrite <- !app_assoc. }
  destruct Hstep as (w1 & Hrun & Htrace). exists w1.
  split; [exact Hrun|]. split; [exact Htrace|].
  cbn [process_documents]. by rewrite (bind_ret _ _ _ _ _ Hrun).
Qed.

(** The corpus half of C9: the script raises before anything else
    happens. *)
Lemma corpus_py_missing_config w :
  Py.truthy (loaded_environ false w !! "GOOGLE_CLOUD_PROJECT") = false
  ∨ Py.truthy (loaded_environ false w !! "GOOGLE_CLOUD_LOCATION") = false →
  ∃ msg w', prepare_crisis_corpus_py ext w = (Raise (Py.ValueError msg), w') ∧
            trace w' = trace w.
Proof.
  unfold prepare_crisis_corpus_py, module_config, loaded_environ.
  unfold bind at 1 2.
  rewrite (load_dotenv_ret false w), <- (load_dotenv_trace false w).
  generalize ((Dotenv.load_dotenv false w).2). intros w1 Hmissing.
  destruct w1 as [env path file err tdir tmp tr].
  cbn [environ trace snd] in *. run.
  destruct (Py.truthy (env !! "GOOGLE_CLOUD_PROJECT")) eqn:Hproject;
    cbn [negb]; [|by eexists _, _].
  destruct Hmissing as [?|Hlocation]; [done|]. rewrite Hlocation.
  cbn [negb]. by eexists _, _.
Qed.

End CorpusProperties.

Section CorpusExamples.
Import CorpusPy.

Lemma create_or_get_corpus_idempotent_witness :
  let w := Examples.world Examples.cloud_env None in
  ∃ w', create_or_get_corpus Examples.populated Examples.globals w
        = (Ret Examples.existing_corpus, w') ∧
        extends_by no_create_corpus w w'.
Proof.
  intros w.
  destruct (create_or_get_corpus_idempotent Examples.populated
              Examples.globals w _ eq_refl)
    as (o & w' & Hrun & Hfound & _ & _).
  destruct Hfound as (c & -> & _ & _ & Hfirst & Hext).
  { exists Examples.existing_corpus. split; [|reflexivity].
    apply list_elem_of_further, list_elem_of_here. }
  vm_compute in Hfirst. injection Hfirst as <-.
  by exists w'.
Defined.

Lemma upload_pdf_to_corpus_idempotent_witness :
  let w := Examples.world Examples.cloud_env None in
  ∃ w', upload_pdf_to_corpus Examples.populated
          "projects/p/locations/l/ragCorpora/4"
          "/tmp/tmpa1b2c3/earthquake_info_sheet.pdf"
          "earthquake_info_sheet.pdf" "FEMA Earthquake Information Sheet" w
        = (Ret (Some Examples.existing_file), w') ∧
        extends_by no_upload w w'.
Proof.
  intros w.
  destruct (upload_pdf_to_corpus_idempotent Examples.populated
              "projects/p/locations/l/ragCorpora/4"
              "/tmp/tmpa1b2c3/earthquake_info_sheet.pdf"
              "earthquake_info_sheet.pdf" "FEMA Earthquake Information Sheet"
              w _ eq_refl)
    as (o & w' & Hrun & Hfound & _ & _).
  destruct Hfound as (f & -> & _ & _ & Hfirst & Hext).
  { exists Examples.existing_file. split; [|reflexivity].
    apply list_elem_of_here. }
  vm_compute in Hfirst. injection Hfirst as <-.
  by exists w'.
Defined.

Lemma download_failure_skips_document_witness :
  let w := Examples.world Examples.cloud_env None in
  let u := "https://www.ready.gov/sites/default/files/2024-03/ready.gov_earthquake_hazard-info-sheet.pdf" in
  ∃ doc rest w1,
    EXAMPLE_DOCUMENTS = doc :: rest ∧
    process_document Examples.offline "corpus" "/tmp/tmpa1b2c3" doc 0 w
    = (Ret 0, w1) ∧
    trace w1
    = [ Print ("Downloading PDF from " +:+ u +:+ "...");
        RequestsGet u;
        Print ("Error downloading " +:+ u
               +:+ ": 404 Client Error: Not Found");
        Print "Skipping upload for earthquake_info_sheet.pdf due to download failure or file not found." ] ∧
    process_documents Examples.offline "corpus" "/tmp/tmpa1b2c3"
      EXAMPLE_DOCUMENTS 0 w
    = process_documents Examples.offline "corpus" "/tmp/tmpa1b2c3" rest 0 w1.
Proof.
  intros w u. eexists _, _.
  destruct (download_failure_skips_document Examples.offline
              "corpus" "/tmp/tmpa1b2c3"
              {| DocInfo.url := Some u;
                 DocInfo.filename := "earthquake_info_sheet.pdf";
                 DocInfo.description := "FEMA Earthquake Information Sheet" |}
              (tail EXAMPLE_DOCUMENTS) 0 w u
              "404 Client Error: Not Found" false
              eq_refl eq_refl eq_refl)
    as (w1 & Hrun & Htrace & Hloop).
  exists w1. split; [reflexivity|]. split; [exact Hrun|].
  split; [exact Htrace|exact Hloop].
Defined.

(** C8, as stated, fails for a download that fails with anything but a
    request error.  With the disk full, the first document of
    EXAMPLE_DOCUMENTS is requested and the OSError of the write goes through
    [download_pdf_from_url] uncaught: no error line is printed, the second
    document is never requested, and [main] ends with the exception. *)
Lemma download_failure_counterexample :
  let w := Examples.world Examples.cloud_env None in
  let u := "https://www.ready.gov/sites/default/files/2024-03/ready.gov_earthquake_hazard-info-sheet.pdf" in
  let looped :=
    process_documents MoreExamples.disk_full
      "projects/p/locations/l/ragCorpora/4" "/tmp/tmpa1b2c3"
      EXAMPLE_DOCUMENTS 0 w in
  let ran := main MoreExamples.disk_full Examples.globals w in
  requests_get MoreExamples.disk_full
    [Print ("Downloading PDF from " +:+ u +:+ "..."); RequestsGet u]
  = HttpOtherException "[Errno 28] No space left on device" ∧
  looped.1 = Raise (Py.OtherException "[Errno 28] No space left on device") ∧
  trace looped.2
  = [Print ("Downloading PDF from " +:+ u +:+ "..."); RequestsGet u] ∧
  ran.1 = Raise (Py.OtherException "[Errno 28] No space left on device") ∧
  exit_status ran.1 = 1%Z ∧
  length (filter (λ e, is_download_request e = true) (trace ran.2))
  = 1.
Proof.
  intros w u looped ran.
  assert (Hloop : looped.1
    = Raise (Py.OtherException "[Errno 28] No space left on device"))
    by (vm_compute; reflexivity).
  assert (Htrace : trace looped.2
    = [Print ("Downloading PDF from " +:+ u +:+ "..."); RequestsGet u])
    by (vm_compute; reflexivity).
  assert (Hran : ran.1
    = Raise (Py.OtherException "[Errno 28] No space left on device"))
    by (vm_compute; reflexivity).
  split; [reflexivity|]. split; [exact Hloop|]. split; [exact Htrace|].
  split; [exact Hran|]. split; [by rewrite Hran|].
  vm_compute. reflexivity.
Qed.

End CorpusExamples.

(** ** Missing cloud configuration *)

Section MissingConfiguration.
Variable ext : External.
Variable F : FLAGS.t.

(** C9: when GOOGLE_CLOUD_PROJECT or GOOGLE_CLOUD_LOCATION is missing, the
    corpus script raises a ValueError with the trace untouched; when one of
    them or the staging bucket name is missing from both the flags and the
    environment, the deployment CLI exits with status 1 having made no
    network call. *)
Theorem missing_cloud_configuration_is_fatal (w : World) :
  (Py.truthy (loaded_environ false w !! "GOOGLE_CLOUD_PROJECT") = false
   ∨ Py.truthy (loaded_environ false w !! "GOOGLE_CLOUD_LOCATION") = false →
   ∃ msg w',
     CorpusPy.prepare_crisis_corpus_py ext w
     = (Raise (Py.ValueError msg), w') ∧
     exit_status (Raise (A := ()) (Py.ValueError msg)) ≠ 0%Z ∧
     trace w' = trace w) ∧
  (config_missing (FLAGS.project_id F) "GOOGLE_CLOUD_PROJECT"
                  (deploy_environ w)
   ∨ config_missing (FLAGS.location F) "GOOGLE_CLOUD_LOCATION"
                    (deploy_environ w)
   ∨ config_missing (FLAGS.staging_bucket_name F) "STAGING_BUCKET_NAME"
                    (deploy_environ w) →
   ∃ w',
     DeployPy.deploy_py ext F w = (SysExit 1, w') ∧
     extends_by no_network w w').
Proof.
  split.
  - intros Hmissing.
    destruct (corpus_py_missing_config ext w Hmissing)
      as (msg & w' & Hrun & Htrace).
    by exists msg, w'.
  - apply deploy_py_missing_config.
Qed.

End MissingConfiguration.

Lemma missing_cloud_configuration_is_fatal_witness :
  let ext := Examples.populated in
  let w := Examples.world {[ "GOOGLE_CLOUD_PROJECT" := "proj" ]} None in
  (∃ msg w',
     CorpusPy.prepare_crisis_corpus_py ext w
     = (Raise (Py.ValueError msg), w') ∧ trace w' = trace w) ∧
  (∃ w',
     DeployPy.deploy_py ext
       (Examples.flags_for false true false false None) w
     = (SysExit 1, w') ∧
     extends_by no_network w w').
Proof.
  intros ext w.
  destruct (missing_cloud_configuration_is_fatal ext
              (Examples.flags_for false true false false None) w)
    as [Hcorpus Hdeploy].
  split.
  - destruct Hcorpus as (msg & w' & Hrun & _ & Htrace).
    { right. vm_compute. reflexivity. }
    by exists msg, w'.
  - apply Hdeploy. right. left. split; vm_compute; reflexivity.
Defined.

(** ** deploy.py: configuration values and the [.env] file *)

Section ConfigValue.
Import DeployPy.

(** X1: A value [_get_config_value] returns is never empty; it is the flag when
    a flag was given and the environment variable otherwise, and nothing is
    logged. *)
Theorem get_config_value_returns (flag : option string)
    (key msg v : string) (w w' : World) :
  _get_config_value flag key msg w = (Ret v, w') →
  w' = w ∧ Py.str_truthy v = true ∧
  (flag = Some v ∨ (flag = None ∧ environ w !! key = Some v)).
Proof.
  unfold _get_config_value, bind, getenv, ret, logger_error, emit, raise.
  destruct flag as [f|]; cbn [Py.truthy].
  - destruct (Py.str_truthy f) eqn:Hf; cbn [negb]; [|discriminate].
    cbn [Py.str_opt]. intros [= <- <-]. auto.
  - destruct (environ w !! key) as [e|] eqn:He; cbn [Py.truthy];
      [|discriminate].
    destruct (Py.str_truthy e) eqn:Hf; cbn [negb]; [|discriminate].
    cbn [Py.str_opt]. intros [= <- <-]. auto.
Qed.

Lemma get_config_value_returns_witness :
  let w := Examples.world Examples.cloud_env None in
  _get_config_value (Some "from-flag") "GOOGLE_CLOUD_PROJECT" "m" w
  = (Ret "from-flag", w) ∧
  Py.str_truthy "from-flag" = true.
Proof.
  intros w.
  destruct (get_config_value_returns (Some "from-flag")
              "GOOGLE_CLOUD_PROJECT" "m" "from-flag" w w eq_refl)
    as (_ & Hne & _).
  split; [reflexivity|exact Hne].
Defined.

End ConfigValue.

Section EnvFileUpdates.
Import DeployPy.

(** X2: [_update_env_file] never raises and never exits; when the file cannot be
    written it is left as it was and the failure is logged as an error. *)
Theorem update_env_file_never_fails (key : string) (value : option string)
    (w : World) :
  ∃ w', _update_env_file key value w = (Ret (), w') ∧
    environ w' = environ w ∧
    extends_by is_output w w' ∧
    (∀ m, env_file_error w = Some m →
       env_file w' = env_file w ∧
       trace w'
       = trace w ++ [Log ERROR ("Error updating .env file at "
                                +:+ env_file_path w +:+ ": " +:+ m)]).
Proof.
  destruct w as [env path file err tdir tmp tr].
  unfold _update_env_file, Dotenv.ENV_FILE_PATH, Dotenv.exists_,
    Dotenv.create_empty, Dotenv.set_key, Dotenv.unset_key.
  run.
  destruct file as [f|], value as [v|], err as [m|];
    cbn [Py.obj_truthy negb Py.is_Exception Py.str_exn]; run;
    eexists; (split; [reflexivity|]); (split; [reflexivity|]);
    (split; [solve_extends|]); intros m' [= <-] || intros m' [=];
    split; reflexivity.
Qed.

(** X3: On a writable file, setting a key makes it hold the value, unsetting it
    makes it absent, and every other key keeps what it had. *)
Theorem update_env_file_lookup (key : string) (value : option string)
    (w : World) :
  env_file_error w = None →
  ∃ f' w', _update_env_file key value w = (Ret (), w') ∧
    env_file w' = Some f' ∧
    f' !! key = value ∧
    (∀ other, other ≠ key →
       f' !! other = default ∅ (env_file w) !! other).
Proof.
  intros Hok.
  destruct (update_env_file_ok key value w Hok)
    as (w' & Hrun & Hfile & _ & _ & _).
  eexists _, w'. split; [exact Hrun|]. split; [exact Hfile|].
  destruct value as [v|]; split.
  - apply lookup_insert_eq.
  - intros other Hne. by apply lookup_insert_ne.
  - apply lookup_delete_eq.
  - intros other Hne. by apply lookup_delete_ne.
Qed.

Lemma update_env_file_lookup_witness :
  ∃ f' w',
    _update_env_file "AGENT_ENGINE_ID" (Some "engines/9")
      (Examples.world Examples.cloud_env (Some Examples.deployed_file))
    = (Ret (), w') ∧
    env_file w' = Some f' ∧
    f' !! "AGENT_ENGINE_ID" = Some "engines/9" ∧
    f' !! "AGENT_DISPLAY_NAME" = Some "Crisis Response Agent".
Proof.
  destruct (update_env_file_lookup "AGENT_ENGINE_ID" (Some "engines/9")
              (Examples.world Examples.cloud_env
                 (Some Examples.deployed_file)) eq_refl)
    as (f' & w' & Hrun & Hfile & Hkey & Hframe).
  exists f', w'. split; [exact Hrun|]. split; [exact Hfile|].
  split; [exact Hkey|]. rewrite Hframe by done. vm_compute. reflexivity.
Defined.

(** X4: When there is no [.env] file, a writable update creates it first: a set
    leaves a file with that one key, and even an unset leaves an empty
    file behind. *)
Theorem update_env_file_creates_file (key : string) (value : option string)
    (w : World) :
  env_file w = None → env_file_error w = None →
  ∃ w', _update_env_file key value w = (Ret (), w') ∧
    env_file w'
    = Some (match value with Some v => {[ key := v ]} | None => ∅ end) ∧
    Log INFO ("Created .env file at: " +:+ env_file_path w) ∈ trace w'.
Proof.
  destruct w as [env path file err tdir tmp tr]. cbn. intros -> ->.
  unfold _update_env_file, Dotenv.ENV_FILE_PATH, Dotenv.exists_,
    Dotenv.create_empty, Dotenv.set_key, Dotenv.unset_key.
  run.
  destruct value as [v|]; cbn [Py.obj_truthy negb]; run;
    eexists; (split; [reflexivity|]); cbn [env_file trace default
      from_option Datatypes.id]; split.
  - by rewrite insert_empty.
  - set_solver.
  - by rewrite delete_empty.
  - set_solver.
Qed.

Lemma update_env_file_creates_file_witness :
  ∃ w', _update_env_file "AGENT_ENGINE_ID" None
          (Examples.world Examples.cloud_env None) = (Ret (), w') ∧
        env_file w' = Some ∅.
Proof.
  destruct (update_env_file_creates_file "AGENT_ENGINE_ID" None
              (Examples.world Examples.cloud_env None) eq_refl eq_refl)
    as (w' & Hrun & Hfile & _).
  by exists w'.
Defined.

End EnvFileUpdates.

Section OperationFailures.
Import Adk DeployPy.
Variable ext : External.
Variable F : FLAGS.t.
Variable root : Agent.

Lemma update_env_file_runs key value w :
  ∃ w', _update_env_file key value w = (Ret (), w') ∧
        trace w `prefix_of` trace w'.
Proof.
  destruct w as [env path file err tdir tmp tr].
  unfold _update_env_file, Dotenv.ENV_FILE_PATH, Dotenv.exists_,
    Dotenv.create_empty, Dotenv.set_key, Dotenv.unset_key.
  run.
  destruct file as [f|], value as [v|], err as [m|];
    cbn [Py.obj_truthy negb Py.is_Exception Py.str_exn]; run;
    eexists; (split; [reflexivity|]); cbn [trace]; solve_prefix.
Qed.

Ltac skip_update_env_file :=
  match goal with
  | |- context [_update_env_file ?k ?v ?w] =>
      let w1 := fresh "w" in
      let Hrun := fresh "Hrun" in
      let Htr := fresh "Htr" in
      destruct (update_env_file_runs k v w) as (w1 & Hrun & Htr);
      rewrite Hrun; cbn [trace] in *
  end.

(** X5: [create_agent] ends normally or with status 1, never with an exception.
    It ends with status 1 exactly when the create call raised: the [.env]
    file is then as it was, and the last thing logged is the failure. *)
Theorem create_agent_failure (loc bucket : string) (w : World) :
  ∃ o w', create_agent ext F root loc bucket w = (o, w') ∧
    (o = Ret () ∨ o = SysExit 1) ∧
    (o = SysExit 1 →
     env_file w' = env_file w ∧
     ∃ e, answered_since (agent_engines_create ext) (trace w) (trace w')
            (AgentEnginesCreate {| agent := root; enable_tracing := true |}
               (FLAGS.display_name F) (FLAGS.description F)
               DEPLOYMENT_REQUIREMENTS EXTRA_PACKAGES) (inl e) ∧
          last (trace w')
          = Some (Log ERROR ("Deployment failed: " +:+ Py.str_exn e))).
Proof.
  destruct w as [env path file err tdir tmp tr].
  unfold create_agent, _get_adk_app. run.
  match goal with
  | |- context [agent_engines_create ext ?t] =>
      destruct (agent_engines_create ext t) as [e|app] eqn:Hans
  end.
  - cbn [Py.is_Exception]. eexists _, _. split; [reflexivity|].
    split; [by right|]. intros _. split; [reflexivity|].
    exists e. split.
    + eapply answered_since_intro; [exact Hans| |]; cbn [trace];
        solve_prefix.
    + cbn [trace]. by rewrite last_snoc.
  - skip_update_env_file. skip_update_env_file.
    eexists _, _. split; [reflexivity|]. split; [by left|]. discriminate.
Qed.

(** X6: [update_agent] likewise: status 1 when the identifier is missing or the
    update call raised, and then the [.env] file is as it was. *)
Theorem update_agent_failure (id : option string) (w : World) :
  ∃ o w', update_agent ext F root id w = (o, w') ∧
    (o = Ret () ∨ o = SysExit 1) ∧
    (o = SysExit 1 → env_file w' = env_file w) ∧
    (Py.truthy id = false →
     o = SysExit 1 ∧ extends_by is_output w w').
Proof.
  destruct w as [env path file err tdir tmp tr].
  unfold update_agent, _get_adk_app.
  destruct (Py.truthy id); cbn [negb]; run.
  - match goal with
    | |- context [agent_engines_update ext ?t] =>
        destruct (agent_engines_update ext t) as [e|app] eqn:Hans
    end.
    + cbn [Py.is_Exception]. eexists _, _. split; [reflexivity|].
      split; [by right|]. split; [reflexivity|discriminate].
    + destruct (bool_decide _ || negb _).
      * skip_update_env_file. skip_update_env_file.
        eexists _, _. split; [reflexivity|]. split; [by left|].
        split; discriminate.
      * eexists _, _. split; [reflexivity|]. split; [by left|].
        split; discriminate.
  - eexists _, _. split; [reflexivity|]. split; [by right|].
    split; [reflexivity|]. intros _. split; [reflexivity|solve_extends].
Qed.

(** X7: [delete_agent]: status 1 when the identifier is missing, the lookup
    raised or the delete request raised, with the [.env] file as it was; and
    when the lookup raises, no delete request is sent at all. *)
Theorem delete_agent_failure (id : option string) (w : World) :
  ∃ o w', delete_agent ext id w = (o, w') ∧
    (o = Ret () ∨ o = SysExit 1) ∧
    (o = SysExit 1 → env_file w' = env_file w) ∧
    (Py.truthy id = false →
     o = SysExit 1 ∧ extends_by is_output w w') ∧
    (∀ e,
       agent_engines_get ext
         (trace w ++ [Log INFO ("Attempting to delete Agent Engine: "
                                +:+ Py.str_opt id);
                      AgentEnginesGet (Py.str_opt id)]) = inl e →
       o = SysExit 1 ∧ extends_by no_delete_request w w').
Proof.
  destruct w as [env path file err tdir tmp tr].
  unfold delete_agent. cbn [trace]. rewrite (snoc_two tr).
  destruct (Py.truthy id); cbn [negb]; run.
  - match goal with
    | |- context [agent_engines_get ext ?t] =>
        destruct (agent_engines_get ext t) as [e|remote] eqn:Hget
    end.
    + cbn [Py.is_Exception]. eexists _, _. split; [reflexivity|].
      split; [by right|]. split; [reflexivity|]. split; [discriminate|].
      intros e' _. split; [reflexivity|solve_extends].
    + match goal with
      | |- context [remote_agent_delete ext ?t] =>
          destruct (remote_agent_delete ext t) as [e|] eqn:Hdel
      end.
      * cbn [Py.is_Exception]. eexists _, _. split; [reflexivity|].
        split; [by right|]. split; [reflexivity|].
        split; discriminate.
      * destruct (bool_decide _).
        -- skip_update_env_file. skip_update_env_file.
           eexists _, _. split; [reflexivity|]. split; [by left|].
           split; [discriminate|]. split; discriminate.
        -- eexists _, _. split; [reflexivity|]. split; [by left|].
           split; [discriminate|]. split; discriminate.
  - eexists _, _. split; [reflexivity|]. split; [by right|].
    split; [reflexivity|]. split.
    + intros _. split; [reflexivity|solve_extends].
    + intros e _. split; [reflexivity|solve_extends].
Qed.

(** X8: [list_all_agents] only reads: it sends the one list request, leaves the
    environment and the [.env] file alone, ends with status 1 when the
    request raised, and says so when there is no engine. *)
Theorem list_all_agents_read_only (project location : string) (w : World) :
  ∃ o w' evs, list_all_agents ext project location w = (o, w') ∧
    trace w' = trace w ++ evs ∧
    filter (λ e, is_control_plane_call e = true) evs = [AgentEnginesList] ∧
    env_file w' = env_file w ∧ environ w' = environ w ∧
    match agent_engines_list ext
            (trace w ++ [Log INFO ("Listing all Agent Engines in project "
                                   +:+ project +:+ " location "
                                   +:+ location +:+ "...");
                         AgentEnginesList]) with
    | inl e =>
        o = SysExit 1 ∧
        last evs = Some (Log ERROR ("Failed to list Agent Engines: "
                                    +:+ Py.str_exn e))
    | inr [] => o = Ret () ∧ last evs = Some (Print "No Agent Engines found.")
    | inr _ => o = Ret ()
    end.
Proof.
  destruct w as [env path file err tdir tmp tr].
  unfold list_all_agents. cbn [trace]. rewrite (snoc_two tr). run.
  match goal with
  | |- context [agent_engines_list ext ?t] =>
      destruct (agent_engines_list ext t) as [e|[|a agents]]
  end;
    cbn [Py.is_Exception]; eexists _, _, _;
    (split; [reflexivity|]);
    (split; [cbn [trace]; rewrite <- !app_assoc; cbn [app]; reflexivity|]);
    (split; [reflexivity|]); (split; [reflexivity|]);
    (split; [reflexivity|]); try (split; reflexivity); reflexivity.
Qed.

End OperationFailures.

(** ** deploy.py: the command line as a whole *)

Section CommandLine.
Import Adk DeployPy.
Variable ext : External.
Variable F : FLAGS.t.

Lemma is_output_no_network e : is_output e = true → no_network e = true.
Proof. by destruct e. Qed.

Lemma agent_py_outputs w :
  ∃ g w1, AgentPy.agent_py w = (Ret g, w1) ∧
    environ w1 = loaded_environ false w ∧ env_file w1 = env_file w ∧
    env_file_error w1 = env_file_error w ∧
    extends_by is_output w w1.
Proof.
  destruct w as [env path file err tdir tmp tr].
  unfold AgentPy.agent_py, AgentPy.define_rag_tool, loaded_environ,
    Dotenv.load_dotenv.
  destruct file as [f|]; run;
    match goal with
    | |- context [?e !! "RAG_CORPUS"] =>
        destruct (e !! "RAG_CORPUS") as [[|a s]|]
    end;
    cbn [Py.str_truthy]; run;
    eexists _, _; (split; [reflexivity|]);
    (split; [reflexivity|]); (split; [reflexivity|]);
    (split; [reflexivity|]); solve_extends.
Qed.

Lemma load_dotenv_env_file_error override w :
  env_file_error (Dotenv.load_dotenv override w).2 = env_file_error w.
Proof. unfold Dotenv.load_dotenv. by destruct (env_file w). Qed.

Lemma deploy_py_startup_outputs w :
  ∃ g w2, deploy_py ext F w = app_run ext F (AgentPy.root_agent g) w2 ∧
    environ w2 = deploy_environ w ∧ env_file w2 = env_file w ∧
    env_file_error w2 = env_file_error w ∧
    extends_by is_output w w2.
Proof.
  destruct (agent_py_outputs w)
    as (g & w1 & Hrun & Henv & Hfile & Herr & Hext).
  exists g, (Dotenv.load_dotenv true w1).2. repeat split.
  - unfold deploy_py. rewrite (bind_ret _ _ _ _ _ Hrun).
    by rewrite (bind_ret _ _ _ _ _ (load_dotenv_ret true w1)).
  - unfold deploy_environ. apply loaded_environ_ext; [done|].
    by rewrite Hfile, load_dotenv_env_file.
  - by rewrite load_dotenv_env_file.
  - by rewrite load_dotenv_env_file_error.
  - destruct Hext as (evs & Htr & Hall). exists evs.
    by rewrite load_dotenv_trace.
Qed.

(** X9: Two or more action flags at once are rejected before [main] runs: the
    process ends with status 1, having written only the start-up log lines
    and touched nothing. *)
Theorem two_action_flags_rejected (w : World) :
  2 ≤ action_count F →
  ∃ w', deploy_py ext F w = (SysExit 1, w') ∧
    extends_by is_output w w' ∧ env_file w' = env_file w.
Proof.
  intros Hcount.
  destruct (deploy_py_startup_outputs w)
    as (g & w2 & -> & _ & Hfile & _ & Hext).
  exists w2. split; [|done].
  unfold app_run, action_flags_exclusive.
  rewrite bool_decide_eq_false_2; [done|].
  unfold action_count in Hcount. lia.
Qed.

Ltac config_step' :=
  match goal with
  | |- context [_get_config_value ?f ?k ?m ?w] =>
      let v := fresh "v" in
      let Hv := fresh "Hv" in
      destruct (get_config_value_total f k m w) as [[v Hv]|Hv];
      rewrite Hv; clear Hv; cbv beta iota
  end.

Ltac enter_main :=
  unfold main; unfold bind at 1; unfold try_except;
  unfold bind at 1 2 3; unfold exit at 1, ret at 1;
  config_step'; [config_step'; [config_step'|]|].

Ltac ask_init :=
  match goal with
  | |- context [vertexai_init ext ?t] =>
      destruct (vertexai_init ext t)
  end.

Lemma exclusive_update :
  action_flags_exclusive F = true → FLAGS.update F = true →
  FLAGS.list F = false ∧ FLAGS.create F = false ∧ FLAGS.delete F = false.
Proof.
  unfold action_flags_exclusive. intros Hex Hupdate. rewrite Hupdate in Hex.
  destruct (FLAGS.list F), (FLAGS.create F), (FLAGS.delete F);
    vm_compute in Hex; done.
Qed.

Lemma main_update_without_id root w :
  FLAGS.list F = false → FLAGS.create F = false → FLAGS.delete F = false →
  FLAGS.update F = true →
  Py.truthy (FLAGS.agent_engine_id F) = false →
  Py.truthy (environ w !! "AGENT_ENGINE_ID") = false →
  ∃ o w', main ext F root w = (o, w') ∧ exit_status o = 1%Z ∧
          env_file w' = env_file w ∧ extends_by no_control_plane w w'.
Proof.
  intros Hlist Hcreate Hdelete Hupdate Hflag Henv.
  destruct w as [env path file err tdir tmp tr]. cbn in Henv.
  enter_main;
    try (eexists _, _; split; [reflexivity|]; split; [reflexivity|];
         split; [reflexivity|solve_extends]).
  rewrite Hlist, Hcreate, Hdelete, Hupdate, Hflag. run.
  ask_init.
  - eexists _, _; split; [reflexivity|]; split; [reflexivity|];
      split; [reflexivity|solve_extends].
  - rewrite Henv. cbn [negb]. run.
    eexists _, _; split; [reflexivity|]; split; [reflexivity|];
      split; [reflexivity|solve_extends].
Qed.

(** X10: [--update] with an agent identifier in neither the flag nor the
    environment ends with status 1; nothing is sent to the control plane and
    the [.env] file is as it was. *)
Theorem update_without_identifier_exits (w : World) :
  FLAGS.update F = true →
  Py.truthy (FLAGS.agent_engine_id F) = false →
  Py.truthy (deploy_environ w !! "AGENT_ENGINE_ID") = false →
  ∃ o w', deploy_py ext F w = (o, w') ∧
    exit_status o = 1%Z ∧ env_file w' = env_file w ∧
    extends_by no_control_plane w w'.
Proof.
  intros Hupdate Hflag Henv.
  destruct (deploy_py_startup_outputs w)
    as (g & w2 & -> & Henv2 & Hfile & _ & Hext).
  apply (extends_by_weaken _ _ _ _ is_output_no_network) in Hext.
  apply (extends_by_weaken _ _ _ _ no_network_no_control_plane) in Hext.
  unfold app_run. destruct (action_flags_exclusive F) eqn:Hex.
  - destruct (exclusive_update Hex Hupdate) as (Hlist & Hcreate & Hdelete).
    rewrite <- Henv2 in Henv.
    destruct (main_update_without_id (AgentPy.root_agent g) w2
                Hlist Hcreate Hdelete Hupdate Hflag Henv)
      as (o & w' & Hrun & Hstatus & Hfile' & Hext').
    exists o, w'. repeat split; try done; [congruence|].
    by eapply extends_by_trans.
  - exists (SysExit 1), w2. repeat split; done.
Qed.

Lemma main_no_action root w :
  FLAGS.list F = false → FLAGS.create F = false → FLAGS.delete F = false →
  FLAGS.update F = false →
  ∃ o w', main ext F root w = (o, w') ∧
    (o = Ret () ∨ exit_status o = 1%Z) ∧
    (o = Ret () →
     last (trace w')
     = Some (Print (Py.nl +:+ "Help: python your_script_name.py --help"))) ∧
    env_file w' = env_file w ∧ extends_by no_control_plane w w'.
Proof.
  intros Hlist Hcreate Hdelete Hupdate.
  destruct w as [env path file err tdir tmp tr].
  enter_main;
    try (eexists _, _; split; [reflexivity|]; split; [by right|];
         split; [discriminate|]; split; [reflexivity|solve_extends]).
  rewrite Hlist, Hcreate, Hdelete, Hupdate. run.
  ask_init.
  - eexists _, _; split; [reflexivity|]; split; [by right|];
      split; [discriminate|]; split; [reflexivity|solve_extends].
  - destruct (Py.truthy (FLAGS.agent_engine_id F)); run;
      (eexists _, _; split; [reflexivity|]; split; [by left|];
       split; [intros _; cbn [trace]; by rewrite last_snoc|];
       split; [reflexivity|solve_extends]).
Qed.

(** X11: With no action flag the tool is a no-op: it ends normally with the help
    line as its last output, or with status 1 when the configuration is
    missing or [vertexai.init] raised; either way nothing is sent to the
    control plane and the [.env] file is as it was. *)
Theorem no_action_is_noop (w : World) :
  action_count F = 0 →
  ∃ o w', deploy_py ext F w = (o, w') ∧
    (o = Ret () ∨ exit_status o = 1%Z) ∧
    (o = Ret () →
     last (trace w')
     = Some (Print (Py.nl +:+ "Help: python your_script_name.py --help"))) ∧
    env_file w' = env_file w ∧ extends_by no_control_plane w w'.
Proof.
  intros Hcount.
  assert (Hflags : FLAGS.list F = false ∧ FLAGS.create F = false ∧
                   FLAGS.delete F = false ∧ FLAGS.update F = false).
  { unfold action_count in Hcount.
    destruct (FLAGS.list F), (FLAGS.create F), (FLAGS.delete F),
      (FLAGS.update F); vm_compute in Hcount; done. }
  destruct Hflags as (Hlist & Hcreate & Hdelete & Hupdate).
  destruct (deploy_py_startup_outputs w)
    as (g & w2 & -> & _ & Hfile & _ & Hext).
  apply (extends_by_weaken _ _ _ _ is_output_no_network) in Hext.
  apply (extends_by_weaken _ _ _ _ no_network_no_control_plane) in Hext.
  unfold app_run, action_flags_exclusive.
  rewrite Hlist, Hcreate, Hdelete, Hupdate. cbn [bool_decide].
  rewrite bool_decide_eq_true_2 by (vm_compute; lia).
  destruct (main_no_action (AgentPy.root_agent g) w2
              Hlist Hcreate Hdelete Hupdate)
    as (o & w' & Hrun & Hout & Hlast & Hfile' & Hext').
  exists o, w'. repeat split; try done; [congruence|].
  by eapply extends_by_trans.
Qed.

Lemma main_delete_from_environment root w w' :
  FLAGS.list F = false → FLAGS.create F = false → FLAGS.delete F = true →
  Py.truthy (FLAGS.agent_engine_id F) = false →
  env_file_error w = None →
  main ext F root w = (Ret (), w') →
  identity_cleared w'.
Proof.
  intros Hlist Hcreate Hdelete Hflag Herr.
  destruct w as [env path file err tdir tmp tr]. cbn in Herr. subst err.
  enter_main; try discriminate.
  rewrite Hlist, Hcreate, Hdelete, Hflag. run.
  ask_init; [discriminate|].
  destruct (Py.truthy (env !! "AGENT_ENGINE_ID")); cbn [negb]; run;
    [|discriminate].
  intros Hrun. eapply delete_agent_clears; [|exact Hrun|]; reflexivity.
Qed.

(** X12: [--delete] without [--agent_engine_id] deletes the engine the
    environment names; when it succeeds on a writable [.env] file, both
    identity keys are gone from the file. *)
Theorem delete_from_environment_clears (w w' : World) :
  FLAGS.delete F = true →
  Py.truthy (FLAGS.agent_engine_id F) = false →
  env_file_error w = None →
  deploy_py ext F w = (Ret (), w') →
  identity_cleared w'.
Proof.
  intros Hdelete Hflag Herr.
  destruct (deploy_py_startup_outputs w)
    as (g & w2 & -> & _ & _ & Herr2 & _).
  unfold app_run. destruct (action_flags_exclusive F) eqn:Hex;
    [|discriminate].
  destruct (exclusive_delete F Hex Hdelete) as [Hlist Hcreate].
  apply main_delete_from_environment; try done. congruence.
Qed.

Lemma answered_since_weaken {A} (oracle : list Event → A) t0 t0' t e a :
  t0' `prefix_of` t0 → answered_since oracle t0 t e a →
  answered_since oracle t0' t e a.
Proof.
  intros [k ->] (evs & Hpre & Hans). exists (k ++ evs).
  by rewrite !(assoc_L (++)) in *.
Qed.

Lemma main_update_from_environment root w w' :
  FLAGS.list F = false → FLAGS.create F = false → FLAGS.delete F = false →
  FLAGS.update F = true →
  Py.truthy (FLAGS.agent_engine_id F) = false →
  env_file_error w = None →
  main ext F root w = (Ret (), w') →
  ∃ app,
    answered_since (agent_engines_update ext) (trace w) (trace w')
      (AgentEnginesUpdate (Py.str_opt (environ w !! "AGENT_ENGINE_ID"))
         {| agent := root; enable_tracing := true |}
         (FLAGS.display_name F) (FLAGS.description F)
         DEPLOYMENT_REQUIREMENTS EXTRA_PACKAGES) (inr app) ∧
    identity_persisted w' (AgentEngine.resource_name app)
      (FLAGS.display_name F).
Proof.
  intros Hlist Hcreate Hdelete Hupdate Hflag Herr.
  destruct w as [env path file err tdir tmp tr]. cbn in Herr. subst err.
  enter_main; try discriminate.
  rewrite Hlist, Hcreate, Hdelete, Hupdate, Hflag. run.
  ask_init; [discriminate|].
  destruct (Py.truthy (env !! "AGENT_ENGINE_ID")); cbn [negb]; run;
    [|discriminate].
  intros Hrun.
  eapply update_agent_persists in Hrun as (app & Hans & Hid);
    [|reflexivity|by left].
  exists app. split; [|exact Hid].
  eapply answered_since_weaken; [|exact Hans]. cbn [trace]. solve_prefix.
Qed.

Lemma deploy_py_startup_agent w :
  ∃ g w1 w2, AgentPy.agent_py w = (Ret g, w1) ∧
    deploy_py ext F w = app_run ext F (AgentPy.root_agent g) w2 ∧
    environ w2 = deploy_environ w ∧
    env_file_error w2 = env_file_error w ∧
    extends_by is_output w w2.
Proof.
  destruct (agent_py_outputs w)
    as (g & w1 & Hrun & Henv & Hfile & Herr & Hext).
  exists g, w1, (Dotenv.load_dotenv true w1).2. repeat split.
  - exact Hrun.
  - unfold deploy_py. rewrite (bind_ret _ _ _ _ _ Hrun).
    by rewrite (bind_ret _ _ _ _ _ (load_dotenv_ret true w1)).
  - unfold deploy_environ. apply loaded_environ_ext; [done|].
    by rewrite Hfile, load_dotenv_env_file.
  - by rewrite load_dotenv_env_file_error.
  - destruct Hext as (evs & Htr & Hall). exists evs.
    by rewrite load_dotenv_trace.
Qed.

(** X13: [--update] without [--agent_engine_id] sends the update request for
    the engine the environment names, with the root agent that agent.py
    built and this run's display name and description; when the run succeeds
    on a writable [.env] file, the file records the resource name that
    request was answered with and the display name of this run. *)
Theorem update_from_environment_persists (w w' : World) :
  FLAGS.update F = true →
  Py.truthy (FLAGS.agent_engine_id F) = false →
  env_file_error w = None →
  deploy_py ext F w = (Ret (), w') →
  ∃ g w1 app,
    AgentPy.agent_py w = (Ret g, w1) ∧
    answered_since (agent_engines_update ext) (trace w) (trace w')
      (AgentEnginesUpdate
         (Py.str_opt (deploy_environ w !! "AGENT_ENGINE_ID"))
         {| agent := AgentPy.root_agent g; enable_tracing := true |}
         (FLAGS.display_name F) (FLAGS.description F)
         DEPLOYMENT_REQUIREMENTS EXTRA_PACKAGES) (inr app) ∧
    identity_persisted w' (AgentEngine.resource_name app)
      (FLAGS.display_name F).
Proof.
  intros Hupdate Hflag Herr.
  destruct (deploy_py_startup_agent w)
    as (g & w1 & w2 & Hagent & -> & Henv2 & Herr2 & Hext).
  unfold app_run. destruct (action_flags_exclusive F) eqn:Hex;
    [|discriminate].
  destruct (exclusive_update Hex Hupdate) as (Hlist & Hcreate & Hdelete).
  intros Hrun.
  apply main_update_from_environment in Hrun
    as (app & Hans & Hid); try done; [|congruence].
  exists g, w1, app. split; [exact Hagent|]. split; [|exact Hid].
  rewrite <- Henv2.
  eapply answered_since_weaken; [|exact Hans].
  by eapply extends_by_prefix.
Qed.

End CommandLine.

Lemma two_action_flags_rejected_witness :
  let F2 := Examples.flags_for true false true false None in
  let w := Examples.world Examples.cloud_env None in
  ∃ w', DeployPy.deploy_py Examples.populated F2 w = (SysExit 1, w') ∧
        extends_by is_output w w'.
Proof.
  intros F2 w.
  assert (Hcount : 2 ≤ action_count F2) by (vm_compute; lia).
  destruct (two_action_flags_rejected Examples.populated F2 w Hcount)
    as (w' & Hrun & Hext & _).
  by exists w'.
Defined.

Lemma update_without_identifier_exits_witness :
  let F1 := Examples.flags_for false false false true None in
  let w := Examples.world Examples.cloud_env None in
  ∃ o w', DeployPy.deploy_py Examples.populated F1 w = (o, w') ∧
          exit_status o = 1%Z ∧ extends_by no_control_plane w w'.
Proof.
  intros F1 w.
  assert (Henv : Py.truthy (deploy_environ w !! "AGENT_ENGINE_ID") = false)
    by (vm_compute; reflexivity).
  destruct (update_without_identifier_exits Examples.populated F1 w
              eq_refl eq_refl Henv)
    as (o & w' & Hrun & Hstatus & _ & Hext).
  by exists o, w'.
Defined.

Lemma no_action_is_noop_witness :
  let w := Examples.world Examples.cloud_env
             (Some Examples.deployed_file) in
  ∃ o w', DeployPy.deploy_py Examples.populated Examples.flags w = (o, w') ∧
          env_file w' = Some Examples.deployed_file ∧
          extends_by no_control_plane w w'.
Proof.
  intros w.
  assert (Hcount : action_count Examples.flags = 0)
    by (vm_compute; reflexivity).
  destruct (no_action_is_noop Examples.populated Examples.flags w Hcount)
    as (o & w' & Hrun & _ & _ & Hfile & Hext).
  by exists o, w'.
Defined.

Lemma delete_from_environment_clears_witness :
  let F1 := Examples.flags_for false false true false None in
  let w := Examples.world Examples.cloud_env
             (Some Examples.deployed_file) in
  identity_cleared (DeployPy.deploy_py Examples.populated F1 w).2.
Proof.
  intros F1 w.
  assert (Hrun :
    DeployPy.deploy_py Examples.populated F1 w
    = (Ret (), (DeployPy.deploy_py Examples.populated F1 w).2))
    by (vm_compute; reflexivity).
  exact (delete_from_environment_clears Examples.populated F1 w _
           eq_refl eq_refl eq_refl Hrun).
Defined.

Lemma update_from_environment_persists_witness :
  let F1 := Examples.flags_for false false false true None in
  let w := Examples.world Examples.cloud_env
             (Some Examples.deployed_file) in
  identity_persisted (DeployPy.deploy_py Examples.populated F1 w).2
    "engines/1" "Crisis Response Agent".
Proof.
  intros F1 w.
  assert (Hrun :
    DeployPy.deploy_py Examples.populated F1 w
    = (Ret (), (DeployPy.deploy_py Examples.populated F1 w).2))
    by (vm_compute; reflexivity).
  destruct (update_from_environment_persists Examples.populated F1 w _
              eq_refl eq_refl eq_refl Hrun)
    as (g & w1 & app & _ & (evs & _ & Hans) & Hid).
  injection Hans as <-. exact Hid.
Defined.

(** ** Which source a setting comes from *)

Section Precedence.
Import Adk AgentPy.

Lemma loaded_environ_lookup override w key :
  loaded_environ override w !! key
  = if override
    then match file_value w key with
         | Some v => Some v
         | None => environ w !! key
         end
    else match environ w !! key with
         | Some v => Some v
         | None => file_value w key
         end.
Proof.
  unfold loaded_environ, Dotenv.load_dotenv, file_value.
  destruct (env_file w) as [f|]; cbn.
  - destruct override; rewrite lookup_union;
      destruct (f !! key), (environ w !! key); reflexivity.
  - destruct override; [reflexivity|]. by destruct (environ w !! key).
Qed.

(** X14: agent.py loads [.env] without overriding: MODEL_NAME and RAG_CORPUS come
    from the process environment when it has them, and from the [.env] file
    only otherwise. *)
Theorem agent_settings_prefer_environment (w : World) :
  ∃ g w', agent_py w = (Ret g, w') ∧
    agent_model (root_agent g)
    = match environ w !! "MODEL_NAME" with
      | Some m => m
      | None => default "gemini-2.0-flash" (file_value w "MODEL_NAME")
      end ∧
    RAG_CORPUS g
    = match environ w !! "RAG_CORPUS" with
      | Some c => Some c
      | None => file_value w "RAG_CORPUS"
      end.
Proof.
  destruct (agent_py_returns w)
    as (g & w' & Hrun & Hmodel & Hcorpus & _ & _ & _ & Hroot).
  exists g, w'. split; [exact Hrun|].
  rewrite Hroot, Hcorpus. cbn [agent_model]. rewrite Hmodel.
  rewrite !(loaded_environ_lookup false).
  split; [|reflexivity]. by destruct (environ w !! "MODEL_NAME").
Qed.


(** X16: Importing agent.py calls no service and leaves the [.env] file alone:
    all it does is log, and it always gets to the end. *)
Theorem agent_import_only_logs (w : World) :
  ∃ g w', agent_py w = (Ret g, w') ∧
    extends_by is_output w w' ∧ env_file w' = env_file w ∧
    agent_tools_of (search_agent g) = [google_search].
Proof.
  destruct (agent_py_outputs w) as (g & w' & Hrun & _ & Hfile & _ & Hext).
  destruct (agent_py_returns w)
    as (g' & w'' & Hrun' & _ & _ & _ & Hsearch & _).
  rewrite Hrun in Hrun'. injection Hrun' as <- <-.
  exists g, w'. repeat split; try done. by rewrite Hsearch.
Qed.

End Precedence.

(** ** prepare_crisis_corpus.py: failures, skips and the upload count *)

Section CorpusMore.
Import CorpusPy.
Variable ext : External.
Variable G : Globals.

(** X17: When listing the corpora raises, [create_or_get_corpus] lets the
    exception through: nothing is created and nothing is printed. *)
Theorem create_or_get_corpus_listing_failure (w : World) (e : Py.Exn) :
  rag_list_corpora ext (trace w ++ [RagListCorpora]) = inl e →
  ∃ w', create_or_get_corpus ext G w = (Raise e, w') ∧
        trace w' = trace w ++ [RagListCorpora].
Proof.
  intros Hlist. destruct w as [env path file err tdir tmp tr].
  unfold create_or_get_corpus. unfold bind at 1. unfold call at 1.
  cbn [trace with_trace environ env_file env_file_path env_file_error
       temp_dir tmp_files] in *.
  rewrite Hlist. by eexists.
Qed.


(** X19: A download that succeeds returns [True] and leaves the file in the
    temporary directory, after exactly one request. *)
Theorem download_pdf_success (url output_path : string) (w : World) :
  requests_get ext
    (trace w ++ [Print ("Downloading PDF from " +:+ url +:+ "...");
                 RequestsGet url]) = HttpOk →
  ∃ w', download_pdf_from_url ext url output_path w = (Ret true, w') ∧
    output_path ∈ tmp_files w' ∧
    trace w'
    = trace w ++
      [ Print ("Downloading PDF from " +:+ url +:+ "...");
        RequestsGet url;
        Print ("PDF downloaded successfully to " +:+ output_path) ].
Proof.
  destruct w as [env path file err tdir tmp tr]. cbn [trace].
  rewrite (snoc_two tr). intros Hget.
  unfold download_pdf_from_url, fetch_to_file. run. rewrite Hget.
  eexists. split; [reflexivity|]. cbn [tmp_files trace].
  split; [set_solver|]. by rewrite <- !app_assoc.
Qed.

(** X20: An exception of the download that is not a request error is not caught:
    it ends the document loop there, and the remaining documents are never
    attempted. *)
Theorem other_download_error_aborts_loop
    (corpus_name temp_dir : string) (doc : DocInfo.t)
    (rest : list DocInfo.t) (n : nat) (w : World) (u msg : string) :
  DocInfo.url doc = Some u →
  Py.str_truthy u = true →
  requests_get ext
    (trace w ++ [Print ("Downloading PDF from " +:+ u +:+ "...");
                 RequestsGet u]) = HttpOtherException msg →
  ∃ w1,
    process_documents ext corpus_name temp_dir (doc :: rest) n w
    = (Raise (Py.OtherException msg), w1) ∧
    trace w1
    = trace w ++ [Print ("Downloading PDF from " +:+ u +:+ "...");
                  RequestsGet u].
Proof.
  intros Hurl Htruthy.
  destruct w as [env path file err tdir tmp tr]. cbn [trace].
  rewrite (snoc_two tr). intros Hget.
  cbn [process_documents]. unfold bind at 1.
  unfold process_document, download_pdf_from_url, fetch_to_file.
  rewrite Hurl. cbn [Py.truthy Py.str_opt]. rewrite Htruthy.
  run. rewrite Hget. cbn [Py.is_RequestException].
  by eexists.
Qed.

(** X21: A document without a URL (none, or the empty string) is skipped with a
    notice: no request, no call to the corpus, the count as it was. *)
Theorem document_without_url_is_skipped
    (corpus_name temp_dir : string) (doc : DocInfo.t) (n : nat)
    (w : World) :
  Py.truthy (DocInfo.url doc) = false →
  ∃ w1,
    process_document ext corpus_name temp_dir doc n w = (Ret n, w1) ∧
    trace w1
    = trace w ++
      [ Print ("No URL provided for " +:+ DocInfo.filename doc
               +:+ ". Assuming local file (logic not implemented). Skipping.") ].
Proof.
  intros Hurl. destruct w as [env path file err tdir tmp tr].
  unfold process_document. rewrite Hurl. run. cbn [andb negb]. run.
  by eexists.
Qed.

(** X22: A document that downloads fine and is already in the corpus under its
    file name is counted as a successful upload, although nothing is
    uploaded. *)
Theorem existing_file_counts_as_upload
    (corpus_name dir : string) (doc : DocInfo.t) (n : nat)
    (w : World) (u : string) (fs : list RagFile.t) (f : RagFile.t) :
  let pdf_path := dir +:+ "/" +:+ DocInfo.filename doc in
  DocInfo.url doc = Some u →
  Py.str_truthy u = true →
  requests_get ext
    (trace w ++ [Print ("Downloading PDF from " +:+ u +:+ "...");
                 RequestsGet u]) = HttpOk →
  rag_list_files ext
    (trace w ++ [Print ("Downloading PDF from " +:+ u +:+ "...");
                 RequestsGet u;
                 Print ("PDF downloaded successfully to " +:+ pdf_path);
                 uploading_message (DocInfo.filename doc);
                 RagListFiles corpus_name]) = inr fs →
  first_file_named (DocInfo.filename doc) fs = Some f →
  ∃ w1,
    process_document ext corpus_name dir doc n w = (Ret (n + 1), w1) ∧
    extends_by no_upload w w1.
Proof.
  intros pdf_path Hurl Htruthy.
  destruct w as [env path file err tdir tmp tr]. cbn [trace].
  intros Hget Hlist Hfind.
  assert (Hget' :
    requests_get ext
      ((tr ++ [Print ("Downloading PDF from " +:+ u +:+ "...")])
       ++ [RequestsGet u]) = HttpOk)
    by (by rewrite <- app_assoc).
  assert (Hlist' :
    rag_list_files ext
      (((((tr ++ [Print ("Downloading PDF from " +:+ u +:+ "...")])
          ++ [RequestsGet u])
         ++ [Print ("PDF downloaded successfully to " +:+ pdf_path)])
        ++ [uploading_message (DocInfo.filename doc)])
       ++ [RagListFiles corpus_name]) = inr fs)
    by (by rewrite <- !app_assoc).
  unfold process_document, download_pdf_from_url, fetch_to_file,
    path_exists.
  rewrite Hurl. cbn [Py.truthy Py.str_opt]. rewrite Htruthy.
  fold pdf_path. run. rewrite Hget'. run.
  rewrite bool_decide_eq_true_2 by set_solver. cbn [andb].
  unfold upload_pdf_to_corpus.
  unfold bind at 1, print at 1, emit at 1. unfold try_except at 1.
  unfold bind at 1, call at 1.
  cbn [trace with_trace environ env_file env_file_path env_file_error
       temp_dir tmp_files].
  fold (uploading_message (DocInfo.filename doc)). rewrite Hlist'.
  unfold bind at 1. rewrite find_existing_file_run, Hfind. run.
  cbn [Py.obj_truthy]. run.
  eexists. split; [reflexivity|]. solve_extends.
Qed.

End CorpusMore.

Section DocumentLoop.
Import CorpusPy.
Variable ext : External.

Lemma process_document_count corpus_name dir doc n w m w' :
  process_document ext corpus_name dir doc n w = (Ret m, w') →
  n ≤ m ≤ n + 1.
Proof.
  unfold process_document, bind, ret, print, emit.
  repeat case_match; intros [= <- <-] || intros [=]; lia.
Qed.

(** X23: The upload count never goes down and grows by at most one per
    document: a loop that ends normally returns a count between the one it
    started with and that plus the number of documents. *)
Theorem process_documents_count_bounds
    (corpus_name dir : string) (docs : list DocInfo.t) (n m : nat)
    (w w' : World) :
  process_documents ext corpus_name dir docs n w = (Ret m, w') →
  n ≤ m ≤ n + length docs.
Proof.
  revert n w. induction docs as [|doc docs IH]; intros n w.
  - cbn. intros [= <- <-]. lia.
  - cbn [process_documents length]. unfold bind at 1.
    destruct (process_document ext corpus_name dir doc n w)
      as [[k|e|c] w1] eqn:Hstep; [|discriminate..].
    intros Hrest. apply IH in Hrest.
    apply process_document_count in Hstep. lia.
Qed.

Lemma process_document_offline corpus_name dir doc n w :
  (∀ t, ∃ msg created, requests_get ext t = HttpRequestException msg created) →
  ∃ w1, process_document ext corpus_name dir doc n w = (Ret n, w1) ∧
        extends_by no_rag_call w w1.
Proof.
  intros Hoffline. destruct w as [env path file err tdir tmp tr].
  unfold process_document, download_pdf_from_url, fetch_to_file.
  destruct (Py.truthy (DocInfo.url doc)) eqn:Hurl; run.
  - match goal with
    | |- context [requests_get ext ?t] =>
        destruct (Hoffline t) as (msg & created & ->)
    end.
    cbn [Py.is_RequestException].
    destruct created; cbn [andb negb]; run;
      (eexists; split; [reflexivity|solve_extends]).
  - cbn [andb negb]. run. eexists. split; [reflexivity|solve_extends].
Qed.

(** X25: When every download fails with a request error, the loop still runs
    through all documents, calls the corpus service for none of them and
    returns the count it started with. *)
Theorem process_documents_offline
    (corpus_name dir : string) (docs : list DocInfo.t) (n : nat)
    (w : World) :
  (∀ t, ∃ msg created, requests_get ext t = HttpRequestException msg created) →
  ∃ w', process_documents ext corpus_name dir docs n w = (Ret n, w') ∧
        extends_by no_rag_call w w'.
Proof.
  intros Hoffline. revert w. induction docs as [|doc docs IH]; intros w.
  - exists w. split; [reflexivity|apply extends_by_refl].
  - destruct (process_document_offline corpus_name dir doc n w Hoffline)
      as (w1 & Hstep & Hext1).
    destruct (IH w1) as (w' & Hrest & Hext).
    exists w'. split; [|by eapply extends_by_trans].
    cbn [process_documents]. by rewrite (bind_ret _ _ _ _ _ Hstep).
Qed.

End DocumentLoop.

Lemma process_documents_count_bounds_witness :
  ∃ m w',
    CorpusPy.process_documents Examples.populated
      "projects/p/locations/l/ragCorpora/4" "/tmp/tmpa1b2c3"
      CorpusPy.EXAMPLE_DOCUMENTS 0
      (Examples.world Examples.cloud_env None) = (Ret m, w') ∧
    0 ≤ m ≤ 2.
Proof.
  set (r := CorpusPy.process_documents Examples.populated
              "projects/p/locations/l/ragCorpora/4" "/tmp/tmpa1b2c3"
              CorpusPy.EXAMPLE_DOCUMENTS 0
              (Examples.world Examples.cloud_env None)).
  assert (Hrun : r = (Ret 2, r.2)) by (vm_compute; reflexivity).
  exists 2, r.2. split; [exact Hrun|].
  exact (process_documents_count_bounds Examples.populated _ _ _ _ _ _ _
           Hrun).
Defined.

Lemma process_documents_offline_witness :
  ∃ w',
    CorpusPy.process_documents Examples.offline "corpus" "/tmp/tmpa1b2c3"
      CorpusPy.EXAMPLE_DOCUMENTS 0
      (Examples.world Examples.cloud_env None) = (Ret 0, w') ∧
    extends_by no_rag_call (Examples.world Examples.cloud_env None) w'.
Proof.
  apply (process_documents_offline Examples.offline).
  intros t. by exists "404 Client Error: Not Found", false.
Defined.

(** ** prepare_crisis_corpus.py: publishing the corpus name *)

Section PublishCorpus.
Import Adk CorpusPy.

Lemma corpus_update_env_file_run name path w :
  ∃ w', update_env_file name path w = (Ret (), w') ∧
    environ w' = loaded_environ true w ∧
    env_file_error w' = env_file_error w ∧
    (loaded_environ true w !! "RAG_CORPUS" = Some name →
     env_file w' = env_file w ∧
     last (trace w')
     = Some (Print ("RAG_CORPUS in " +:+ path
                    +:+ " is already set correctly."))) ∧
    (loaded_environ true w !! "RAG_CORPUS" ≠ Some name →
     match env_file_error w with
     | None =>
         env_file w'
         = Some (<["RAG_CORPUS" := name]> (default ∅ (env_file w)))
     | Some m =>
         env_file w' = env_file w ∧
         last (trace w')
         = Some (Print ("Error updating .env file: " +:+ m))
     end).
Proof.
  unfold update_env_file, loaded_environ.
  unfold try_except, bind at 1.
  rewrite (load_dotenv_ret true w).
  assert (Hfile := load_dotenv_env_file true w).
  assert (Herr := load_dotenv_env_file_error true w).
  revert Hfile Herr.
  generalize ((Dotenv.load_dotenv true w).2). intros w1 Hfile Herr.
  rewrite <- Hfile, <- Herr. clear Hfile Herr.
  destruct w1 as [env p file err tdir tmp tr]. unfold Dotenv.set_key. run.
  destruct (bool_decide_reflect (env !! "RAG_CORPUS" = Some name))
    as [Hsame|Hdiff]; cbn [negb]; run.
  - eexists. split; [reflexivity|]. split; [reflexivity|].
    split; [reflexivity|]. split; [|done].
    intros _. split; [reflexivity|]. cbn [trace]. by rewrite last_snoc.
  - destruct err as [m|]; cbn [Py.is_Exception Py.str_exn]; run;
      (eexists; split; [reflexivity|]; split; [reflexivity|];
       split; [reflexivity|]; split; [done|]; intros _).
    + split; [reflexivity|]. cbn [trace]. by rewrite last_snoc.
    + reflexivity.
Qed.

(** X26: [update_env_file] never raises.  It reloads [.env] over the
    environment and writes RAG_CORPUS only when the value it then reads is
    not the corpus name; a write that fails is reported and leaves the file
    as it was. *)
Theorem corpus_update_env_file_writes_when_different
    (name path : string) (w : World) :
  ∃ w', update_env_file name path w = (Ret (), w') ∧
    environ w' = loaded_environ true w ∧
    (loaded_environ true w !! "RAG_CORPUS" = Some name →
     env_file w' = env_file w) ∧
    (loaded_environ true w !! "RAG_CORPUS" ≠ Some name →
     match env_file_error w with
     | None =>
         env_file w'
         = Some (<["RAG_CORPUS" := name]> (default ∅ (env_file w)))
     | Some m =>
         env_file w' = env_file w ∧
         last (trace w')
         = Some (Print ("Error updating .env file: " +:+ m))
     end).
Proof.
  destruct (corpus_update_env_file_run name path w)
    as (w' & Hrun & Henv & _ & Hsame & Hdiff).
  exists w'. repeat split; try done. intros H. by destruct (Hsame H).
Qed.

(** X27: The check is made on the environment, not on the file: when the [.env]
    file has no RAG_CORPUS but the process environment already names this
    corpus, nothing is written and the file still lacks the key. *)
Theorem corpus_name_in_environment_only_is_not_written
    (name path : string) (w : World) :
  file_value w "RAG_CORPUS" = None →
  environ w !! "RAG_CORPUS" = Some name →
  ∃ w', update_env_file name path w = (Ret (), w') ∧
    env_file w' = env_file w ∧
    file_value w' "RAG_CORPUS" = None ∧
    last (trace w')
    = Some (Print ("RAG_CORPUS in " +:+ path
                   +:+ " is already set correctly.")).
Proof.
  intros Hfile Henv.
  destruct (corpus_update_env_file_run name path w)
    as (w' & Hrun & _ & _ & Hsame & _).
  destruct Hsame as [Hunchanged Hlast].
  { by rewrite (loaded_environ_lookup true), Hfile. }
  exists w'. repeat split; try done.
  unfold file_value in *. by rewrite Hunchanged.
Qed.

Lemma agent_py_with_corpus w c :
  loaded_environ false w !! "RAG_CORPUS" = Some c →
  Py.str_truthy c = true →
  ∃ g w' description,
    AgentPy.agent_py w = (Ret g, w') ∧
    agent_tools_of (AgentPy.root_agent g)
    = [ AgentTool (OfTool (VertexAiRagRetrieval
                             "retrieve_crisis_information" description
                             [ {| rag_corpus := c |} ]));
        AgentTool (OfAgent (AgentPy.search_agent g)) ].
Proof.
  unfold AgentPy.agent_py, loaded_environ. unfold bind at 1.
  rewrite (load_dotenv_ret false w).
  generalize ((Dotenv.load_dotenv false w).2). intros w1.
  destruct w1 as [env p file err tdir tmp tr]. cbn [environ snd].
  intros Hcorpus Htruthy. unfold AgentPy.define_rag_tool. run.
  rewrite Hcorpus, Htruthy. run.
  eexists _, _, _. split; reflexivity.
Qed.

(** X28: The corpus script and the agent fit together: after [update_env_file]
    on a writable [.env], a process started without RAG_CORPUS in its
    environment builds the root agent with the retrieval tool bound to that
    corpus, ahead of the search delegate. *)
Theorem published_corpus_reaches_agent
    (name path : string) (w : World) (env0 : gmap string string) :
  env_file_error w = None →
  environ w !! "RAG_CORPUS" = None →
  Py.str_truthy name = true →
  env0 !! "RAG_CORPUS" = None →
  ∃ w' g w'' description,
    update_env_file name path w = (Ret (), w') ∧
    AgentPy.agent_py (later_process env0 w') = (Ret g, w'') ∧
    agent_tools_of (AgentPy.root_agent g)
    = [ AgentTool (OfTool (VertexAiRagRetrieval
                             "retrieve_crisis_information" description
                             [ {| rag_corpus := name |} ]));
        AgentTool (OfAgent (AgentPy.search_agent g)) ].
Proof.
  intros Hok Henv Htruthy Henv0.
  destruct (corpus_update_env_file_run name path w)
    as (w' & Hrun & _ & _ & Hsame & Hdiff).
  assert (Hpublished : file_value w' "RAG_CORPUS" = Some name).
  { destruct (decide (loaded_environ true w !! "RAG_CORPUS" = Some name))
      as [Heq|Hne].
    - destruct (Hsame Heq) as [Hfile _].
      rewrite (loaded_environ_lookup true), Henv in Heq.
      unfold file_value in *. rewrite Hfile.
      by destruct (env_file w ≫= _).
    - specialize (Hdiff Hne). rewrite Hok in Hdiff.
      unfold file_value. rewrite Hdiff. cbn. apply lookup_insert_eq. }
  destruct (agent_py_with_corpus (later_process env0 w') name)
    as (g & w'' & description & Hagent & Htools); [|done|].
  { rewrite (loaded_environ_lookup false). cbn [later_process environ].
    rewrite Henv0. exact Hpublished. }
  by exists w', g, w'', description.
Qed.

End PublishCorpus.

Lemma corpus_name_in_environment_only_is_not_written_witness :
  let w := Examples.world
             {[ "RAG_CORPUS" := "projects/p/locations/l/ragCorpora/4" ]}
             (Some Examples.deployed_file) in
  ∃ w', CorpusPy.update_env_file "projects/p/locations/l/ragCorpora/4"
          "/srv/app/.env" w = (Ret (), w') ∧
        env_file w' = Some Examples.deployed_file.
Proof.
  intros w.
  assert (Hfile : file_value w "RAG_CORPUS" = None)
    by (vm_compute; reflexivity).
  assert (Henv : environ w !! "RAG_CORPUS"
                 = Some "projects/p/locations/l/ragCorpora/4")
    by (vm_compute; reflexivity).
  destruct (corpus_name_in_environment_only_is_not_written
              "projects/p/locations/l/ragCorpora/4" "/srv/app/.env" w
              Hfile Henv)
    as (w' & Hrun & Hunchanged & _ & _).
  by exists w'.
Defined.

Lemma published_corpus_reaches_agent_witness :
  let w := Examples.world Examples.cloud_env None in
  ∃ w' g w'',
    CorpusPy.update_env_file "projects/p/locations/l/ragCorpora/4"
      "/srv/app/.env" w = (Ret (), w') ∧
    AgentPy.agent_py (later_process Examples.cloud_env w') = (Ret g, w'') ∧
    Adk.tool_name <$> Adk.agent_tools_of (AgentPy.root_agent g)
    = ["retrieve_crisis_information"; "GoogleSearch"].
Proof.
  intros w.
  assert (Henv : Examples.cloud_env !! "RAG_CORPUS" = None)
    by (vm_compute; reflexivity).
  destruct (published_corpus_reaches_agent
              "projects/p/locations/l/ragCorpora/4" "/srv/app/.env" w
              Examples.cloud_env eq_refl Henv eq_refl Henv)
    as (w' & g & w'' & description & Hrun & Hagent & Htools).
  exists w', g, w''. split; [exact Hrun|]. split; [exact Hagent|].
  rewrite Htools. cbn [fmap list_fmap Adk.tool_name].
  destruct (agent_py_returns (later_process Examples.cloud_env w'))
    as (g' & w3 & Hagent' & _ & _ & _ & Hsearch & _).
  rewrite Hagent in Hagent'. injection Hagent' as <- <-.
  by rewrite Hsearch.
Defined.

(** ** What only writes to the trace *)

Section Frame.
Context {A B : Type}.

Lemma keeps_ret (a : A) : keeps_settings (ret a).
Proof. by intros w o w' [= <- <-]. Qed.

Lemma keeps_raise e : keeps_settings (raise (A := A) e).
Proof. by intros w o w' [= <- <-]. Qed.

Lemma keeps_exit c : keeps_settings (exit (A := A) c).
Proof. by intros w o w' [= <- <-]. Qed.

Lemma keeps_bind (m : M A) (k : A → M B) :
  keeps_settings m → (∀ a, keeps_settings (k a)) → keeps_settings (bind m k).
Proof.
  intros Hm Hk w o w'. unfold bind.
  destruct (m w) as [[a|e|c] w1] eqn:Hrun.
  - intros Hrest. destruct (Hm _ _ _ Hrun) as (<- & <- & <-).
    by eapply Hk.
  - intros [= <- <-]. by eapply Hm.
  - intros [= <- <-]. by eapply Hm.
Qed.

Lemma keeps_try_except (m : M A) catches h :
  keeps_settings m → (∀ e, keeps_settings (h e)) →
  keeps_settings (try_except m catches h).
Proof.
  intros Hm Hh w o w'. unfold try_except.
  destruct (m w) as [[a|e|c] w1] eqn:Hrun.
  - intros [= <- <-]. by eapply Hm.
  - destruct (catches e).
    + intros Hrest. destruct (Hm _ _ _ Hrun) as (<- & <- & <-).
      by eapply Hh.
    + intros [= <- <-]. by eapply Hm.
  - intros [= <- <-]. by eapply Hm.
Qed.

Lemma keeps_call e (oracle : list Event → Py.Exn + A) :
  keeps_settings (call e oracle).
Proof.
  intros w o w'. unfold call. cbn.
  destruct (oracle _); by intros [= <- <-].
Qed.

End Frame.

Lemma keeps_emit e : keeps_settings (emit e).
Proof. by intros w o w' [= <- <-]. Qed.

Lemma keeps_call_unit e oracle : keeps_settings (call_unit e oracle).
Proof.
  intros w o w'. unfold call_unit. cbn.
  destruct (oracle _); by intros [= <- <-].
Qed.

Lemma keeps_env_file_path : keeps_settings Dotenv.ENV_FILE_PATH.
Proof. by intros w o w' [= <- <-]. Qed.

Ltac solve_keeps :=
  repeat (intros;
    first
      [ assumption
      | match goal with H : ∀ _, keeps_settings _ |- _ => apply H end
      | match goal with H : ∀ _ _, keeps_settings _ |- _ => apply H end
      | match goal with H : ∀ _ _ _ _, keeps_settings _ |- _ => apply H end
      | apply keeps_ret | apply keeps_raise | apply keeps_exit
      | apply keeps_emit | apply keeps_call | apply keeps_call_unit
      | apply keeps_env_file_path
      | apply keeps_bind | apply keeps_try_except
      | match goal with
        | |- keeps_settings (if ?b then _ else _) => destruct b
        | |- keeps_settings (match ?x with _ => _ end) => destruct x
        end ]).

Section CorpusFrame.
Import CorpusPy.
Variable ext : External.
Variable G : Globals.

Lemma keeps_find_existing_corpus cs :
  keeps_settings (find_existing_corpus G cs).
Proof.
  induction cs as [|c cs IH]; cbn [find_existing_corpus];
    unfold print; solve_keeps.
Qed.

Lemma keeps_find_existing_file name fs :
  keeps_settings (find_existing_file name fs).
Proof.
  induction fs as [|f fs IH]; cbn [find_existing_file];
    unfold print; solve_keeps.
Qed.

Lemma keeps_create_or_get_corpus : keeps_settings (create_or_get_corpus ext G).
Proof.
  unfold create_or_get_corpus, print.
  pose proof keeps_find_existing_corpus. solve_keeps.
Qed.

Lemma keeps_initialize_vertex_ai : keeps_settings (initialize_vertex_ai ext G).
Proof. unfold initialize_vertex_ai. solve_keeps. Qed.

Lemma keeps_fetch_to_file url output_path :
  keeps_settings (fetch_to_file ext url output_path).
Proof.
  intros w o w'. unfold fetch_to_file. cbn.
  destruct (requests_get ext _) as [|m [|]|m]; by intros [= <- <-].
Qed.

Lemma keeps_path_exists p : keeps_settings (path_exists p).
Proof. by intros w o w' [= <- <-]. Qed.

Lemma keeps_process_document corpus_name dir doc n :
  keeps_settings (process_document ext corpus_name dir doc n).
Proof.
  unfold process_document, download_pdf_from_url, upload_pdf_to_corpus,
    print.
  pose proof keeps_fetch_to_file. pose proof keeps_path_exists.
  pose proof keeps_find_existing_file. solve_keeps.
Qed.

Lemma keeps_print_files fs : keeps_settings (print_files fs).
Proof.
  induction fs as [|f fs IH]; cbn [print_files]; unfold print; solve_keeps.
Qed.

Lemma keeps_list_corpus_files corpus_name :
  keeps_settings (list_corpus_files ext corpus_name).
Proof.
  unfold list_corpus_files, print. pose proof keeps_print_files.
  solve_keeps.
Qed.

Lemma keeps_with_temporary_directory {A} (body : string → M A) :
  (∀ d, keeps_settings (body d)) →
  keeps_settings (with_temporary_directory body).
Proof.
  intros Hbody w o w'. unfold with_temporary_directory.
  destruct (body (temp_dir w) (with_tmp_files w ∅)) as [r w1] eqn:Hrun.
  intros [= <- <-]. by destruct (Hbody _ _ _ _ Hrun) as (? & ? & ?).
Qed.

Lemma keeps_process_documents corpus_name dir docs n :
  keeps_settings (process_documents ext corpus_name dir docs n).
Proof.
  revert n. induction docs as [|doc docs IH]; intros n;
    cbn [process_documents].
  - apply keeps_ret.
  - apply keeps_bind; [apply keeps_process_document|]. intros k. apply IH.
Qed.

(** X29: The document loop works on the temporary directory and the corpus only:
    however it ends, the environment and the [.env] file are as they were
    before it. *)
Theorem process_documents_keeps_settings
    (corpus_name dir : string) (docs : list DocInfo.t) (n : nat)
    (w w' : World) (o : Outcome nat) :
  process_documents ext corpus_name dir docs n w = (o, w') →
  environ w' = environ w ∧ env_file w' = env_file w ∧
  env_file_error w' = env_file_error w.
Proof. apply keeps_process_documents. Qed.

(** X30: [main] publishes the corpus name before it touches any document: once
    the corpus has been resolved, a run started on a writable [.env] and
    without RAG_CORPUS in the process environment leaves the corpus name in
    the file, whether the documents then succeed, fail or end the run. *)
Theorem main_publishes_corpus_first
    (docs : list DocInfo.t) (w w1 w2 w' : World) (c : RagCorpus.t)
    (o : Outcome ()) :
  env_file_error w = None →
  environ w !! "RAG_CORPUS" = None →
  initialize_vertex_ai ext G w = (Ret (), w1) →
  create_or_get_corpus ext G w1 = (Ret c, w2) →
  main_on ext G docs w = (o, w') →
  file_value w' "RAG_CORPUS" = Some (RagCorpus.name c).
Proof.
  intros Hok Henv Hinit Hcorpus.
  destruct (keeps_initialize_vertex_ai _ _ _ Hinit) as (Henv1 & Hfile1 & Herr1).
  destruct (keeps_create_or_get_corpus _ _ _ Hcorpus)
    as (Henv2 & Hfile2 & Herr2).
  unfold main_on.
  rewrite (bind_ret _ _ _ _ _ Hinit), (bind_ret _ _ _ _ _ Hcorpus).
  unfold bind at 1. unfold Dotenv.ENV_FILE_PATH at 1.
  destruct (corpus_update_env_file_run (RagCorpus.name c)
              (env_file_path w2) w2)
    as (w3 & Hupdate & _ & _ & Hsame & Hdiff).
  rewrite (bind_ret _ _ _ _ _ Hupdate).
  assert (Hpublished : file_value w3 "RAG_CORPUS" = Some (RagCorpus.name c)).
  { destruct (decide (loaded_environ true w2 !! "RAG_CORPUS"
                      = Some (RagCorpus.name c))) as [Heq|Hne].
    - destruct (Hsame Heq) as [Hfile _].
      rewrite (loaded_environ_lookup true), Henv2, Henv1, Henv in Heq.
      unfold file_value in *. rewrite Hfile.
      by destruct (env_file w2 ≫= _).
    - specialize (Hdiff Hne). rewrite Herr2, Herr1, Hok in Hdiff.
      unfold file_value. rewrite Hdiff. cbn. apply lookup_insert_eq. }
  intros Hrest.
  assert (Hkeeps : keeps_settings
    (bind (with_temporary_directory (λ temp_dir,
             bind (print ("Using temporary directory: " +:+ temp_dir))
               (λ _, bind (process_documents ext (RagCorpus.name c)
                             temp_dir docs 0)
                  (λ successful_uploads,
                     print (Py.nl
                            +:+ "Finished processing documents. Successful uploads: "
                            +:+ pretty successful_uploads)))))
          (λ _, list_corpus_files ext (RagCorpus.name c)))).
  { apply keeps_bind; [|intros; apply keeps_list_corpus_files].
    apply keeps_with_temporary_directory. intros d.
    pose proof keeps_process_documents. unfold print.
    solve_keeps. }
  destruct (Hkeeps _ _ _ Hrest) as (_ & Hfile & _).
  unfold file_value in *. by rewrite Hfile.
Qed.

End CorpusFrame.

(** ** Instances of the conditional statements *)

Lemma create_or_get_corpus_listing_failure_witness :
  ∃ w', CorpusPy.create_or_get_corpus MoreExamples.unavailable
          Examples.globals (Examples.world Examples.cloud_env None)
        = (Raise (Py.OtherException "503 unavailable"), w') ∧
        trace w' = [RagListCorpora].
Proof.
  exact (create_or_get_corpus_listing_failure MoreExamples.unavailable
           Examples.globals (Examples.world Examples.cloud_env None)
           (Py.OtherException "503 unavailable") eq_refl).
Defined.

Lemma download_pdf_success_witness :
  ∃ w', CorpusPy.download_pdf_from_url Examples.populated
          "https://example.org/a.pdf" "/tmp/tmpa1b2c3/a.pdf"
          (Examples.world Examples.cloud_env None) = (Ret true, w') ∧
        "/tmp/tmpa1b2c3/a.pdf" ∈ tmp_files w'.
Proof.
  destruct (download_pdf_success Examples.populated
              "https://example.org/a.pdf" "/tmp/tmpa1b2c3/a.pdf"
              (Examples.world Examples.cloud_env None) eq_refl)
    as (w' & Hrun & Hin & _).
  by exists w'.
Defined.

Lemma other_download_error_aborts_loop_witness :
  ∃ w1,
    CorpusPy.process_documents MoreExamples.unavailable "corpus"
      "/tmp/tmpa1b2c3"
      (MoreExamples.earthquake_sheet :: [MoreExamples.local_document]) 0
      (Examples.world Examples.cloud_env None)
    = (Raise (Py.OtherException "[Errno 28] No space left on device"), w1) ∧
    length (trace w1) = 2.
Proof.
  destruct (other_download_error_aborts_loop MoreExamples.unavailable
              "corpus" "/tmp/tmpa1b2c3" MoreExamples.earthquake_sheet
              [MoreExamples.local_document] 0
              (Examples.world Examples.cloud_env None) _
              "[Errno 28] No space left on device"
              eq_refl eq_refl eq_refl)
    as (w1 & Hrun & Htrace).
  exists w1. split; [exact Hrun|]. by rewrite Htrace.
Defined.

Lemma document_without_url_is_skipped_witness :
  ∃ w1,
    CorpusPy.process_document Examples.populated "corpus" "/tmp/tmpa1b2c3"
      MoreExamples.local_document 3
      (Examples.world Examples.cloud_env None) = (Ret 3, w1) ∧
    trace w1
    = [ Print "No URL provided for shelter_map.pdf. Assuming local file (logic not implemented). Skipping." ].
Proof.
  exact (document_without_url_is_skipped Examples.populated "corpus"
           "/tmp/tmpa1b2c3" MoreExamples.local_document 3
           (Examples.world Examples.cloud_env None) eq_refl).
Defined.

Lemma existing_file_counts_as_upload_witness :
  ∃ w1,
    CorpusPy.process_document Examples.populated
      "projects/p/locations/l/ragCorpora/4" "/tmp/tmpa1b2c3"
      MoreExamples.earthquake_sheet 0
      (Examples.world Examples.cloud_env None) = (Ret 1, w1) ∧
    extends_by no_upload (Examples.world Examples.cloud_env None) w1.
Proof.
  assert (Hfind :
    first_file_named "earthquake_info_sheet.pdf" [Examples.existing_file]
    = Some Examples.existing_file) by (vm_compute; reflexivity).
  exact (existing_file_counts_as_upload Examples.populated
           "projects/p/locations/l/ragCorpora/4" "/tmp/tmpa1b2c3"
           MoreExamples.earthquake_sheet 0
           (Examples.world Examples.cloud_env None) _ _ _
           eq_refl eq_refl eq_refl eq_refl Hfind).
Defined.

Lemma process_documents_keeps_settings_witness :
  let r := CorpusPy.process_documents Examples.populated "corpus"
             "/tmp/tmpa1b2c3" CorpusPy.EXAMPLE_DOCUMENTS 0
             (Examples.world Examples.cloud_env
                (Some Examples.deployed_file)) in
  env_file r.2 = Some Examples.deployed_file.
Proof.
  intros r.
  destruct (process_documents_keeps_settings Examples.populated "corpus"
              "/tmp/tmpa1b2c3" CorpusPy.EXAMPLE_DOCUMENTS 0
              (Examples.world Examples.cloud_env
                 (Some Examples.deployed_file)) r.2 r.1)
    as (_ & Hfile & _); [exact (surjective_pairing r)|exact Hfile].
Defined.

Lemma main_publishes_corpus_first_witness :
  let w := Examples.world Examples.cloud_env None in
  file_value
    (CorpusPy.main_on Examples.populated Examples.globals
       CorpusPy.EXAMPLE_DOCUMENTS w).2 "RAG_CORPUS"
  = Some "projects/p/locations/l/ragCorpora/4".
Proof.
  intros w.
  set (r1 := CorpusPy.initialize_vertex_ai Examples.populated
               Examples.globals w).
  set (r2 := CorpusPy.create_or_get_corpus Examples.populated
               Examples.globals r1.2).
  set (r := CorpusPy.main_on Examples.populated Examples.globals
              CorpusPy.EXAMPLE_DOCUMENTS w).
  assert (Hinit : r1 = (Ret (), r1.2)) by (vm_compute; reflexivity).
  assert (Hcorpus : r2 = (Ret Examples.existing_corpus, r2.2))
    by (vm_compute; reflexivity).
  assert (Henv : environ w !! "RAG_CORPUS" = None)
    by (vm_compute; reflexivity).
  exact (main_publishes_corpus_first Examples.populated Examples.globals
           CorpusPy.EXAMPLE_DOCUMENTS w r1.2 r2.2 r.2
           Examples.existing_corpus r.1 eq_refl Henv Hinit Hcorpus
           (surjective_pairing r)).
Defined.
